(** * python_terraform: the command encoder and the process runner

    A shallow embedding of [src/python_terraform/__init__.py] (class
    [Terraform]) and the properties of its option encoding
    ([generate_cmd_string]), of the runner ([cmd]) and of the two
    convenience operations ([apply], [output]).

    Python values are modelled by a closed type of the values the encoder
    distinguishes; Python [str] is [string]; a [dict] is an association
    list in insertion order (the order [dict.items()] iterates in). *)

From Stdlib Require Import String Ascii List ZArith Bool Lia.
From Stdlib Require Import DecimalString.
From Stdlib.Strings Require Byte.
Import ListNotations.

Local Open Scope string_scope.
Local Open Scope list_scope.
Local Open Scope Z_scope.

Set Implicit Arguments.

(** ** Python values *)

Module Py.

(** Scalars: what a keyword value, a list element or a dict key or value
    can be.  These are [None], booleans, integers and strings.  Floats,
    bytes, tuples and nested containers are left out, and with them their
    falsy values ([0.0], [b''], [()]), which line 117 skips as well. *)
Inductive atom : Type :=
| ANone
| ABool (b : bool)
| AInt (z : Z)
| AStr (s : string).

(** A keyword value of [**kwargs]. *)
Inductive value : Type :=
| VAtom (a : atom)
| VList (l : list atom)
| VDict (d : list (atom * atom)).

Definition VNone : value := VAtom ANone.
Definition VBool (b : bool) : value := VAtom (ABool b).
Definition VInt (z : Z) : value := VAtom (AInt z).
Definition VStr (s : string) : value := VAtom (AStr s).

(** [str(z)] for an int. *)
Definition str_of_Z (z : Z) : string :=
  NilZero.string_of_int (Z.to_int z).

(** [str(a)], which is what [format] puts in place of [{v}]. *)
Definition str (a : atom) : string :=
  match a with
  | ANone => "None"
  | ABool true => "True"
  | ABool false => "False"
  | AInt z => str_of_Z z
  | AStr s => s
  end.

(** [a == ''] *)
Definition eq_empty_str (a : atom) : bool :=
  match a with
  | AStr s => String.eqb s ""
  | _ => false
  end.

(** Truth value of a scalar: [bool(a)]. *)
Definition truthy (a : atom) : bool :=
  match a with
  | ANone => false
  | ABool b => b
  | AInt z => negb (z =? 0)
  | AStr s => negb (String.eqb s "")
  end.

(** [type(a) is bool] *)
Definition is_bool (a : atom) : bool :=
  match a with
  | ABool _ => true
  | _ => false
  end.

(** [c.isspace()] for a character below 256. *)
Definition isspace (c : ascii) : bool :=
  let n := nat_of_ascii c in
  ((9 <=? n) && (n <=? 13) || (28 <=? n) && (n <=? 32)
   || (n =? 133) || (n =? 160))%nat.

(** [s.split()]: the maximal runs of non-whitespace characters.  [cur] is
    the run being read, in reverse. *)
Fixpoint split_from (cur : list ascii) (s : string) : list string :=
  let flush :=
    match cur with
    | [] => []
    | _ => [string_of_list_ascii (rev cur)]
    end in
  match s with
  | EmptyString => flush
  | String c s' =>
      if isspace c then flush ++ split_from [] s'
      else split_from (c :: cur) s'
  end.

Definition split (s : string) : list string := split_from [] s.

(** [s.lstrip()] *)
Fixpoint lstrip (s : string) : string :=
  match s with
  | EmptyString => EmptyString
  | String c s' => if isspace c then lstrip s' else s
  end.

(** [sep.join(l)] *)
Definition join (sep : string) (l : list string) : string :=
  String.concat sep l.

(** [c in s] *)
Fixpoint contains (c : ascii) (s : string) : bool :=
  match s with
  | EmptyString => false
  | String d s' => Ascii.eqb c d || contains c s'
  end.

(** [s.replace(a, b)] for single characters [a] and [b]. *)
Fixpoint replace (a b : ascii) (s : string) : string :=
  match s with
  | EmptyString => EmptyString
  | String c s' => String (if Ascii.eqb c a then b else c) (replace a b s')
  end.

(** A [dict] with string keys, in insertion order. *)
Definition dict (V : Type) : Type := list (string * V).

Definition keys {V} (d : dict V) : list string := map fst d.

(** [d[k] = v]: a key already there keeps its place. *)
Fixpoint setitem {V} (d : dict V) (k : string) (v : V) : dict V :=
  match d with
  | [] => [(k, v)]
  | (k', v') :: d' =>
      if String.eqb k' k then (k', v) :: d' else (k', v') :: setitem d' k v
  end.

(** [d.update(e)] *)
Definition update {V} (d e : dict V) : dict V :=
  fold_left (fun acc kv => setitem acc (fst kv) (snd kv)) e d.

Fixpoint get {V} (d : dict V) (k : string) : option V :=
  match d with
  | [] => None
  | (k', v) :: d' => if String.eqb k' k then Some v else get d' k
  end.

(** [k in d] *)
Definition has_key {V} (d : dict V) (k : string) : bool :=
  existsb (String.eqb k) (keys d).

(** [s.endswith(c)] for a single character [c]. *)
Fixpoint endswith (s : string) (c : ascii) : bool :=
  match s with
  | EmptyString => false
  | String d EmptyString => Ascii.eqb d c
  | String _ s' => endswith s' c
  end.

(** [os.path.join(a, b)] of [posixpath]. *)
Definition path_join (a b : string) : string :=
  match b with
  | String "/" _ => b
  | _ =>
      if String.eqb a "" || endswith a "/" then (a ++ b)%string
      else (a ++ "/" ++ b)%string
  end.

End Py.

Import Py.

(** ** The orchestrator instance *)

(** The in-memory snapshot: [dict()] until the first successful run, then
    whatever [Tfstate.load_file] returned. *)
Inductive snapshot (S : Type) : Type :=
| EmptyDict
| Loaded (t : S).
Arguments EmptyDict {S}.

(** The attributes [__init__] sets. *)
Record Terraform (S : Type) : Type := mkTerraform {
  working_dir : option string;
  state : option string;
  targets : list atom;
  variables : list (atom * atom);
  parallelism : option Z;
  terraform_bin_path : string;
  var_file : option string;
  input : bool;
  tfstate : snapshot S
}.

(** [self.tfstate = t] *)
Definition with_tfstate {S} (self : Terraform S) (t : snapshot S)
  : Terraform S :=
  {| working_dir := working_dir self;
     state := state self;
     targets := targets self;
     variables := variables self;
     parallelism := parallelism self;
     terraform_bin_path := terraform_bin_path self;
     var_file := var_file self;
     input := input self;
     tfstate := t |}.

(** Truth value of an optional string: [None] and [''] are false. *)
Definition truthy_opt (o : option string) : bool :=
  match o with
  | None => false
  | Some s => negb (String.eqb s "")
  end.

Definition __init__ {S} (working_dir : option string)
    (targets : option (list atom)) (state : option string)
    (variables : option (list (atom * atom))) (parallelism : option Z)
    (var_file : option string) (terraform_bin_path : option string)
  : Terraform S :=
  {| working_dir := working_dir;
     state := state;
     targets := match targets with None => [] | Some l => l end;
     variables := match variables with None => [] | Some d => d end;
     parallelism := parallelism;
     terraform_bin_path :=
       match terraform_bin_path with
       | Some p => if truthy_opt (Some p) then p else "terraform"
       | None => "terraform"
       end;
     var_file := var_file;
     input := false;
     tfstate := EmptyDict |}.

(** [Terraform()], every argument left out. *)
Definition default {S} : Terraform S :=
  __init__ None None None None None None None.

(** ** The command encoder *)

(** Lines 97-98: the flag spelling of a keyword. *)
Definition option_name (k : string) : string :=
  if contains "_" k then replace "_" "-" k else k.

(** Lines 100-123: the tokens one [(k, v)] of [kwargs] adds to [cmds]. *)
Definition entry_tokens (k : string) (v : value) : list string :=
  let k := option_name k in
  match v with
  | VList l => map (fun sub_v => "-" ++ k ++ "=" ++ str sub_v)%string l
  | VDict d =>
      map (fun kv => "-" ++ k ++ "='" ++ str (fst kv) ++ "=" ++ str (snd kv)
                     ++ "'")%string d
  | VAtom a =>
      if eq_empty_str a then [("-" ++ k)%string]
      else if negb (truthy a) then []
      else
        let a := if is_bool a
                 then AStr (if truthy a then "true" else "false")
                 else a in
        [("-" ++ k ++ "=" ++ str a)%string]
  end.

(** Lines 93-125: the list [cmds] just before it is joined. *)
Definition cmd_tokens {S} (self : Terraform S) (cmd : string)
    (args : list string) (kwargs : dict value) : list string :=
  let cmds := split cmd in
  let cmds := [terraform_bin_path self] ++ cmds in
  let cmds :=
    fold_left (fun cmds kv => cmds ++ entry_tokens (fst kv) (snd kv))
              kwargs cmds in
  cmds ++ args.

Definition generate_cmd_string {S} (self : Terraform S) (cmd : string)
    (args : list string) (kwargs : dict value) : string :=
  join " " (cmd_tokens self cmd args kwargs).

(** The tokens the options contribute, entry by entry. *)
Definition option_tokens (kwargs : dict value) : list string :=
  flat_map (fun kv => entry_tokens (fst kv) (snd kv)) kwargs.

(** ** The world the runner acts on *)

Definition bytes : Type := list Byte.byte.

(** What [json.loads] returns; [JNull] is Python's [None]. *)
#[local] Set Warnings "-register-all".
Inductive json : Type :=
| JNull
| JBool (b : bool)
| JInt (z : Z)
| JFloat (lexeme : string)
| JStr (s : string)
| JArr (l : list json)
| JObj (d : list (string * json)).
#[local] Set Warnings "register-all".

Inductive exn : Type :=
| RuntimeError (msg : string)
| UnicodeDecodeError
| ValueError (msg : string)
| KeyError (k : string)
| TypeError
| OSError (msg : string).

Inductive result (A : Type) : Type :=
| Return (a : A)
| Raise (e : exn).
Arguments Raise {A} e.

(** What a call leaves behind outside the instance, oldest first. *)
Inductive event : Type :=
| LogDebugCommand (c : string)
| Popen (c : string)
| LogDebugOutput (o : bytes)
| LoadFile (path : string)
| LogWarnError (e : bytes).

(** The collaborators that are not part of the class: the child process
    ([subprocess.Popen] with [communicate] and [returncode]), the codec
    ([bytes.decode]), [json.loads], and the state-file parser
    [Tfstate.load_file] of [python_terraform/tfstate.py], which takes a
    path and returns a document or raises.  They are parameters of
    everything below.  The child process and the parser may answer
    differently as the history grows. *)
Class Runtime : Type := {
  Tfstate : Type;
  popen : list event -> string -> Z * bytes * bytes;
  decode_utf8 : bytes -> result string;
  load_file : list event -> string -> result Tfstate;
  json_loads : string -> result json
}.

(** [o['value']] and the like on a decoded document. *)
Definition getitem (o : json) (k : string) : result json :=
  match o with
  | JObj d =>
      match get d k with
      | Some v => Return v
      | None => Raise (KeyError k)
      end
  | _ => Raise TypeError
  end.

Definition is_load (e : event) : bool :=
  match e with
  | LoadFile _ => true
  | _ => false
  end.

(** The number of state-reload attempts recorded in a history. *)
Definition reloads (tr : list event) : nat := length (filter is_load tr).

Section Runner.

Context {RT : Runtime}.

Record world : Type := mkWorld {
  self : Terraform Tfstate;
  trace : list event
}.

(** A method body: it reads and updates the instance and the history, and
    returns or raises. *)
Definition M (A : Type) : Type := world -> result A * world.

Definition pure {A} (a : A) : M A := fun w => (Return a, w).

Definition raise {A} (e : exn) : M A := fun w => (Raise e, w).

Definition bind {A B} (m : M A) (f : A -> M B) : M B :=
  fun w =>
    match m w with
    | (Return a, w') => f a w'
    | (Raise e, w') => (Raise e, w')
    end.

Definition lift {A} (r : result A) : M A := fun w => (r, w).

Definition get_self : M (Terraform Tfstate) := fun w => (Return (self w), w).

Definition emit (e : event) : M unit :=
  fun w => (Return tt, {| self := self w; trace := trace w ++ [e] |}).

Definition set_tfstate (t : snapshot Tfstate) : M unit :=
  fun w => (Return tt, {| self := with_tfstate (self w) t; trace := trace w |}).

(** Spawn, wait, and read both streams and the exit code. *)
Definition communicate (c : string) : M (Z * bytes * bytes) :=
  fun w =>
    (Return (popen (trace w) c),
     {| self := self w; trace := trace w ++ [Popen c] |}).

Definition call_load_file (path : string) : M Tfstate :=
  fun w =>
    (load_file (trace w) path,
     {| self := self w; trace := trace w ++ [LoadFile path] |}).

End Runner.

Declare Scope py_scope.
Delimit Scope py_scope with py.
Notation "x <- m ;; k" := (bind m (fun x => k))
  (at level 61, m at next level, right associativity) : py_scope.
Notation "' p <- m ;; k" := (bind m (fun p => k))
  (at level 61, p pattern, m at next level, right associativity) : py_scope.
Notation "m ;; k" := (bind m (fun _ => k))
  (at level 61, right associativity) : py_scope.

Section Methods.

Context {RT : Runtime}.
Local Open Scope py_scope.

(** Lines 181-188: the path [read_state_file] loads. *)
Definition state_file_path {S} (self : Terraform S)
    (file_path : option string) : string :=
  let file_path :=
    if negb (truthy_opt file_path) then state self else file_path in
  let file_path :=
    match file_path with
    | Some p => if negb (truthy_opt (Some p)) then "terraform.tfstate" else p
    | None => "terraform.tfstate"
    end in
  match working_dir self with
  | Some wd => if truthy_opt (Some wd) then path_join wd file_path
               else file_path
  | None => file_path
  end.

(** Lines 174-190. *)
Definition read_state_file (file_path : option string) : M unit :=
  self <- get_self ;;
  t <- call_load_file (state_file_path self file_path) ;;
  set_tfstate (Loaded t).

(** Lines 129-157. *)
Definition cmd (cmd : string) (args : list string) (kwargs : dict value)
  : M (Z * string * string) :=
  self <- get_self ;;
  let cmd_string := generate_cmd_string self cmd args kwargs in
  emit (LogDebugCommand cmd_string) ;;
  ' (ret_code, out, err) <- communicate cmd_string ;;
  emit (LogDebugOutput out) ;;
  (if ret_code =? 0 then read_state_file None
   else emit (LogWarnError err)) ;;
  out <- lift (decode_utf8 out) ;;
  err <- lift (decode_utf8 err) ;;
  pure (ret_code, out, err).

(** Lines 50-60: the options [apply] passes on. *)
Definition apply_options {S} (self : Terraform S) (no_color : bool)
    (kwargs : dict value) : dict value :=
  let opt_str (o : option string) : value :=
    match o with None => VNone | Some s => VStr s end in
  let option_dict := [] in
  let option_dict := setitem option_dict "state" (opt_str (state self)) in
  let option_dict := setitem option_dict "target" (VList (targets self)) in
  let option_dict := setitem option_dict "var" (VDict (variables self)) in
  let option_dict :=
    setitem option_dict "var_file" (opt_str (var_file self)) in
  let option_dict :=
    setitem option_dict "parallelism"
            match parallelism self with None => VNone | Some n => VInt n end in
  let option_dict :=
    if no_color then setitem option_dict "no_color" (VStr "")
    else option_dict in
  let option_dict := setitem option_dict "input" (VBool (input self)) in
  update option_dict kwargs.

(** Lines 47-48 and 62: the positional arguments [apply] passes on;
    [dir] is the parameter [working_dir]. *)
Definition apply_args {S} (self : Terraform S) (dir : option string)
  : list string :=
  let dir := if negb (truthy_opt dir) then working_dir self else dir in
  match dir with
  | Some d => if truthy_opt (Some d) then [d] else []
  | None => []
  end.

(** Whether a mapping passed as [**kwargs] to [cmd] holds a key that is
    the name of a parameter of [cmd], [self] or [cmd]. *)
Definition keyword_clash (kwargs : dict value) : bool :=
  has_key kwargs "self" || has_key kwargs "cmd".

(** The call [self.cmd(c, *args, **kwargs)] of line 64.  A keyword named
    [self] or [cmd] gives the parameter a second value, which the
    interpreter refuses with [TypeError] before the body of [cmd] runs.
    The body itself never sees such a key, and [cmd] above is the body. *)
Definition call_cmd (c : string) (args : list string) (kwargs : dict value)
  : M (Z * string * string) :=
  if keyword_clash kwargs then raise TypeError else cmd c args kwargs.

(** Lines 37-67. *)
Definition apply (dir : option string) (no_color : bool)
    (kwargs : dict value) : M unit :=
  self <- get_self ;;
  let option_dict := apply_options self no_color kwargs in
  let args := apply_args self dir in
  ' (ret, out, err) <- call_cmd "apply" args option_dict ;;
  if negb (ret =? 0) then raise (RuntimeError err) else pure tt.

(** Lines 159-172. *)
Definition output (name : string) : M json :=
  ' (ret, out, err) <- cmd "output" [name] [("json", VStr "")] ;;
  if negb (ret =? 0) then pure JNull
  else
    let out := lstrip out in
    output_dict <- lift (json_loads out) ;;
    lift (getitem output_dict "value").

End Methods.

(** ** Reading tokens back *)

(** The text of [s] before its first [c]. *)
Fixpoint before (c : ascii) (s : string) : string :=
  match s with
  | EmptyString => EmptyString
  | String d s' => if Ascii.eqb d c then EmptyString else String d (before c s')
  end.

(** The flag a token sets: what stands between its leading dash and its
    first [=]; the empty string for a token that is not a flag. *)
Definition flag_name (t : string) : string :=
  match t with
  | String "-" s => before "=" s
  | _ => ""
  end.

(** [v is None] *)
Definition is_absent (v : value) : bool :=
  match v with
  | VAtom ANone => true
  | _ => false
  end.

(** [s.endswith(suffix)] *)
Definition ends_with (s suffix : string) : bool :=
  let n := String.length s in
  let m := String.length suffix in
  (m <=? n)%nat && String.eqb (substring (n - m) m s) suffix.

(** The command lines a history handed to the shell, oldest first. *)
Fixpoint spawned (tr : list event) : list string :=
  match tr with
  | [] => []
  | Popen c :: tr' => c :: spawned tr'
  | _ :: tr' => spawned tr'
  end.

(** What [cmd] decodes and returns once the child process is over and the
    state, if any, has been read. *)
Definition decoded {RT : Runtime} (code : Z) (out err : bytes) (w : world)
  : result (Z * string * string) * world :=
  match decode_utf8 out with
  | Raise e => (Raise e, w)
  | Return o =>
      match decode_utf8 err with
      | Raise e => (Raise e, w)
      | Return e => (Return (code, o, e), w)
      end
  end.

(** No character of [s] is whitespace. *)
Fixpoint no_space (s : string) : bool :=
  match s with
  | EmptyString => true
  | String c s' => negb (isspace c) && no_space s'
  end.

(** A token the shell reads back as one word: not empty, no whitespace. *)
Definition is_word (t : string) : bool :=
  negb (String.eqb t "") && no_space t.


(** ** A test double for the collaborators *)

Module Double.

Definition bytes_of (s : string) : bytes := list_byte_of_string s.

(** Decoding restricted to ASCII: a byte above 127 is refused. *)
Definition decode_ascii (b : bytes) : result string :=
  if forallb (fun x => (Byte.to_nat x <? 128)%nat) b
  then Return (string_of_list_byte b)
  else Raise UnicodeDecodeError.

(** A child process that always exits with [code] after writing [out] and
    [err]; a parser that returns the path it was given; a JSON decoder
    that answers [doc] whatever the text. *)
Definition runtime (code : Z) (out err : bytes) (doc : result json)
  : Runtime :=
  {| Tfstate := string;
     popen := fun _ _ => (code, out, err);
     decode_utf8 := decode_ascii;
     load_file := fun _ path => Return path;
     json_loads := fun _ => doc |}.

(** The same, with a state file that cannot be read. *)
Definition runtime_no_state (code : Z) (out err : bytes) : Runtime :=
  {| Tfstate := string;
     popen := fun _ _ => (code, out, err);
     decode_utf8 := decode_ascii;
     load_file := fun _ path => Raise (OSError path);
     json_loads := fun _ => Raise (ValueError "") |}.

(** A run that fails with [boom] on its standard error. *)
Definition failing : Runtime :=
  runtime 1 [] (bytes_of "boom") (Raise (ValueError "")).

(** A run that succeeds and prints a document. *)
Definition succeeding : Runtime :=
  runtime 0 (bytes_of " {}") [] (Return (JObj [("value", JStr "10.0.0.1")])).

(** The double quote, and the text of a document with one key. *)
Definition dq : string := String (ascii_of_nat 34) "".

Definition document : string :=
  ("{" ++ dq ++ "value" ++ dq ++ ": " ++ dq ++ "10.0.0.1" ++ dq ++ "}")%string.

(** A JSON decoder that knows [document] and refuses every other text. *)
Definition loads (s : string) : result json :=
  if String.eqb s document then Return (JObj [("value", JStr "10.0.0.1")])
  else Raise (ValueError s).

(** A run that succeeds and prints [document] after a newline and two
    spaces. *)
Definition printing : Runtime :=
  {| Tfstate := string;
     popen := fun _ _ =>
       (0, bytes_of (String (ascii_of_nat 10) ("  " ++ document)), []);
     decode_utf8 := decode_ascii;
     load_file := fun _ path => Return path;
     json_loads := loads |}.

(** A run that exits with 3 and whose standard error is not UTF-8. *)
Definition garbled : Runtime :=
  runtime 3 [] [Byte.xff] (Raise (ValueError "")).

(** [Terraform(variables={'a': 'b'})] *)
Definition tf : Terraform string :=
  __init__ None None None (Some [(AStr "a", AStr "b")]) None None None.

(** The instance [tf] before anything has run, in each of the two. *)
Definition start_failing : @world failing := @mkWorld failing tf [].
Definition start_succeeding : @world succeeding := @mkWorld succeeding tf [].

End Double.

(** ** Properties of the encoder *)

Section Encoder.

Variable S : Type.
Variable self : Terraform S.

(** The loop of lines 96-123 appends, entry by entry, what [entry_tokens]
    gives. *)
Lemma fold_left_entry_tokens (kwargs : dict value) (cmds : list string) :
  fold_left (fun cmds kv => cmds ++ entry_tokens (fst kv) (snd kv))
            kwargs cmds
  = cmds ++ option_tokens kwargs.
Proof.
  revert cmds.
  induction kwargs as [|kv kwargs IH]; intros cmds; simpl.
  - now rewrite app_nil_r.
  - rewrite IH. now rewrite <- app_assoc.
Qed.

(** Token order: binary, subcommand words, options, positionals. *)
Lemma cmd_tokens_order (cmd : string) (args : list string)
    (kwargs : dict value) :
  cmd_tokens self cmd args kwargs
  = [terraform_bin_path self] ++ split cmd ++ option_tokens kwargs ++ args.
Proof.
  unfold cmd_tokens.
  rewrite fold_left_entry_tokens.
  now rewrite <- !app_assoc.
Qed.

Lemma option_tokens_app (d e : dict value) :
  option_tokens (d ++ e) = option_tokens d ++ option_tokens e.
Proof.
  unfold option_tokens. apply flat_map_app.
Qed.

Lemma option_tokens_cons (k : string) (v : value) (d : dict value) :
  option_tokens ((k, v) :: d) = entry_tokens k v ++ option_tokens d.
Proof.
  reflexivity.
Qed.

(** The tokens around one entry are those of the entries around it. *)
Lemma cmd_tokens_entry (cmd : string) (args : list string)
    (pre post : dict value) (k : string) (v : value) :
  cmd_tokens self cmd args (pre ++ (k, v) :: post)
  = [terraform_bin_path self] ++ split cmd ++ option_tokens pre
    ++ entry_tokens k v ++ option_tokens post ++ args.
Proof.
  rewrite cmd_tokens_order, option_tokens_app, option_tokens_cons.
  now rewrite <- !app_assoc.
Qed.

End Encoder.

(** Replacing is the identity on a name without underscore, so the test
    of line 97 changes nothing. *)
Lemma replace_absent (a b : ascii) (s : string) :
  contains a s = false -> replace a b s = s.
Proof.
  induction s as [|c s IH]; simpl; intros H.
  - reflexivity.
  - apply orb_false_iff in H. destruct H as [Hc Hs].
    rewrite (Ascii.eqb_sym c a), Hc. now rewrite IH.
Qed.

Lemma option_name_replace (k : string) :
  option_name k = replace "_" "-" k.
Proof.
  unfold option_name.
  destruct (contains "_" k) eqn:E.
  - reflexivity.
  - symmetry. now apply replace_absent.
Qed.

Lemma replace_removes (a b : ascii) (s : string) :
  a <> b -> contains a (replace a b s) = false.
Proof.
  intros Hab. induction s as [|c s IH]; simpl.
  - reflexivity.
  - rewrite IH, orb_false_r.
    destruct (Ascii.eqb c a) eqn:E.
    + now apply Ascii.eqb_neq.
    + now rewrite Ascii.eqb_sym.
Qed.

Lemma replace_introduces (a b : ascii) (s : string) :
  contains a s = true -> contains b (replace a b s) = true.
Proof.
  induction s as [|c s IH]; simpl; intros H.
  - discriminate.
  - apply orb_true_iff in H. destruct H as [H|H].
    + rewrite (Ascii.eqb_sym c a), H. now rewrite Ascii.eqb_refl.
    + rewrite (IH H). apply orb_true_r.
Qed.

Lemma replace_keeps_absent (a b c : ascii) (s : string) :
  c <> b -> contains c s = false -> contains c (replace a b s) = false.
Proof.
  intros Hcb. induction s as [|d s IH]; simpl; intros H.
  - reflexivity.
  - apply orb_false_iff in H. destruct H as [Hd Hs].
    rewrite (IH Hs), orb_false_r.
    destruct (Ascii.eqb d a).
    + now apply Ascii.eqb_neq.
    + exact Hd.
Qed.

(** ** Claims about the encoder *)

Section EncoderClaims.

Variable S : Type.
Variable self : Terraform S.

(** C1, as the code has it: the test [if not v] of line 117 comes before
    the rendering of booleans on line 121, so an entry whose value is the
    boolean [False] adds no token whatever its name, and encoding
    [{"input": False}] gives the same string as encoding no option; the
    token [-input=false] is never written. *)
Theorem false_option_is_skipped :
  (forall k, entry_tokens k (VBool false) = [])
  /\ (forall cmd args k,
        generate_cmd_string self cmd args [(k, VBool false)]
        = generate_cmd_string self cmd args [])
  /\ generate_cmd_string (@default S) "apply" [] [("input", VBool false)]
     = "terraform apply"
  /\ generate_cmd_string (@default S) "apply" [] [("input", VBool true)]
     = "terraform apply -input=true".
Proof.
  split; [|split; [|split]].
  - intros k. reflexivity.
  - intros cmd args k. unfold generate_cmd_string.
    now rewrite !cmd_tokens_order.
  - reflexivity.
  - reflexivity.
Qed.

(** C5: a list-valued option adds one token [-<name>=<element>] per
    element, in list order, and nothing when the list is empty; a
    map-valued option adds one token [-<name>='<key>=<value>'] per entry;
    the tokens stand between those of the options before and after.
    [{"target": ["a","b"]}] gives [-target=a -target=b] and
    [{"var": {"x":"1"}}] gives [-var='x=1']. *)
Theorem list_and_map_options_expand :
  (forall cmd args pre post k l,
      cmd_tokens self cmd args (pre ++ (k, VList l) :: post)
      = [terraform_bin_path self] ++ split cmd ++ option_tokens pre
        ++ map (fun e => "-" ++ option_name k ++ "=" ++ str e)%string l
        ++ option_tokens post ++ args)
  /\ (forall cmd args pre post k d,
      cmd_tokens self cmd args (pre ++ (k, VDict d) :: post)
      = [terraform_bin_path self] ++ split cmd ++ option_tokens pre
        ++ map (fun kv => "-" ++ option_name k ++ "='" ++ str (fst kv)
                          ++ "=" ++ str (snd kv) ++ "'")%string d
        ++ option_tokens post ++ args)
  /\ (forall k l, length (entry_tokens k (VList l)) = length l)
  /\ (forall k d, length (entry_tokens k (VDict d)) = length d)
  /\ (forall k, entry_tokens k (VList []) = [])
  /\ option_tokens [("target", VList [AStr "a"; AStr "b"])]
     = ["-target=a"; "-target=b"]
  /\ generate_cmd_string (@default S) "apply" []
       [("target", VList [AStr "a"; AStr "b"])]
     = "terraform apply -target=a -target=b"
  /\ option_tokens [("var", VDict [(AStr "x", AStr "1")])] = ["-var='x=1'"]
  /\ generate_cmd_string (@default S) "apply" []
       [("var", VDict [(AStr "x", AStr "1")])]
     = "terraform apply -var='x=1'".
Proof.
  split; [|split; [|split; [|split]]].
  - intros. apply cmd_tokens_entry.
  - intros. apply cmd_tokens_entry.
  - intros k l. simpl. apply length_map.
  - intros k d. simpl. apply length_map.
  - split; [|split; [|split; [|split]]]; reflexivity.
Qed.

(** C6: an option whose value is the empty string adds the bare token
    [-<name>], where every underscore of the name has become a hyphen;
    [{"no_color": ""}] gives the single token [-no-color]. *)
Theorem empty_string_option_is_bare_flag :
  (forall k, entry_tokens k (VStr "") = [("-" ++ replace "_" "-" k)%string])
  /\ (forall k, contains "_" (replace "_" "-" k) = false)
  /\ (forall cmd args pre post k,
      cmd_tokens self cmd args (pre ++ (k, VStr "") :: post)
      = [terraform_bin_path self] ++ split cmd ++ option_tokens pre
        ++ [("-" ++ replace "_" "-" k)%string] ++ option_tokens post ++ args)
  /\ option_tokens [("no_color", VStr "")] = ["-no-color"]
  /\ generate_cmd_string (@default S) "apply" [] [("no_color", VStr "")]
     = "terraform apply -no-color".
Proof.
  assert (H : forall k,
             entry_tokens k (VStr "") = [("-" ++ replace "_" "-" k)%string]).
  { intros k. simpl. now rewrite option_name_replace. }
  split; [exact H|]. split; [|split].
  - intros k. now apply replace_removes.
  - intros. rewrite cmd_tokens_entry. now rewrite H.
  - split; reflexivity.
Qed.


End EncoderClaims.

(** ** Absent values *)

Section Absent.

Variable S : Type.
Variable self : Terraform S.

Lemma option_tokens_absent (kwargs : dict value) :
  Forall (fun kv => snd kv = VNone) kwargs -> option_tokens kwargs = [].
Proof.
  induction 1 as [|[k v] kwargs Hv _ IH].
  - reflexivity.
  - cbn [snd] in Hv. subst v. rewrite option_tokens_cons, IH. reflexivity.
Qed.

Lemma option_tokens_drop_absent (kwargs : dict value) :
  option_tokens kwargs
  = option_tokens (filter (fun kv => negb (is_absent (snd kv))) kwargs).
Proof.
  induction kwargs as [|[k v] kwargs IH].
  - reflexivity.
  - rewrite option_tokens_cons. cbn [filter snd].
    destruct (is_absent v) eqn:E; cbn [negb].
    + destruct v as [[| | |]| |]; try discriminate.
      rewrite IH. reflexivity.
    + rewrite option_tokens_cons, IH. reflexivity.
Qed.

(** C7: when every value of the options mapping is [None], the tokens are
    the binary, the subcommand words and the positional arguments and
    nothing else; and in any mapping the entries whose value is [None]
    can be struck out without changing the encoded string. *)
Theorem absent_options_add_no_token :
  (forall cmd args kwargs,
      Forall (fun kv => snd kv = VNone) kwargs ->
      cmd_tokens self cmd args kwargs
      = [terraform_bin_path self] ++ split cmd ++ args
      /\ generate_cmd_string self cmd args kwargs
         = join " " ([terraform_bin_path self] ++ split cmd ++ args))
  /\ (forall k, entry_tokens k VNone = [])
  /\ (forall cmd args kwargs,
      generate_cmd_string self cmd args kwargs
      = generate_cmd_string self cmd args
          (filter (fun kv => negb (is_absent (snd kv))) kwargs)).
Proof.
  split; [|split].
  - intros cmd args kwargs H.
    assert (E : cmd_tokens self cmd args kwargs
                = [terraform_bin_path self] ++ split cmd ++ args).
    { rewrite cmd_tokens_order, (option_tokens_absent H). reflexivity. }
    split; [exact E|].
    unfold generate_cmd_string. now rewrite E.
  - intros k. reflexivity.
  - intros cmd args kwargs. unfold generate_cmd_string.
    rewrite !cmd_tokens_order, <- option_tokens_drop_absent. reflexivity.
Qed.

End Absent.

Lemma absent_options_add_no_token_witness :
  Forall (fun kv => snd kv = VNone)
         [("state", VNone); ("var_file", VNone)]
  /\ generate_cmd_string (@default unit) "state list" ["dir"]
       [("state", VNone); ("var_file", VNone)]
     = "terraform state list dir".
Proof.
  split.
  - repeat constructor.
  - apply (proj1 (absent_options_add_no_token (@default unit))
                 "state list" ["dir"]
                 [("state", VNone); ("var_file", VNone)]).
    repeat constructor.
Defined.

(** ** Properties of the runner *)

Lemma reloads_app (tr tr' : list event) :
  reloads (tr ++ tr') = (reloads tr + reloads tr')%nat.
Proof.
  unfold reloads. now rewrite filter_app, length_app.
Qed.

Lemma spawned_app (tr tr' : list event) :
  spawned (tr ++ tr') = spawned tr ++ spawned tr'.
Proof.
  induction tr as [|e tr IH]; simpl.
  - reflexivity.
  - destruct e; simpl; now rewrite IH.
Qed.

Section RunnerProps.

Context {RT : Runtime}.

(** The runner, one step after the other. *)
Lemma cmd_unfold (c : string) (args : list string) (kwargs : dict value)
    (w : world) :
  cmd c args kwargs w
  = let s := generate_cmd_string (self w) c args kwargs in
    let tr1 := trace w ++ [LogDebugCommand s] in
    let code := fst (fst (popen tr1 s)) in
    let out := snd (fst (popen tr1 s)) in
    let err := snd (popen tr1 s) in
    let tr2 := (tr1 ++ [Popen s]) ++ [LogDebugOutput out] in
    if code =? 0 then
      let path := state_file_path (self w) None in
      match load_file tr2 path with
      | Raise e => (Raise e, {| self := self w; trace := tr2 ++ [LoadFile path] |})
      | Return t =>
          decoded code out err
            {| self := with_tfstate (self w) (Loaded t);
               trace := tr2 ++ [LoadFile path] |}
      end
    else
      decoded code out err
        {| self := self w; trace := tr2 ++ [LogWarnError err] |}.
Proof.
  unfold cmd, bind, get_self, emit, communicate, lift, pure. cbn [self trace].
  destruct (popen _ _) as [[code out] err]. cbn [fst snd self trace].
  destruct (code =? 0).
  - unfold read_state_file, bind, get_self, call_load_file, set_tfstate.
    cbn [self trace].
    destruct (load_file _ _) as [t|e]; [|reflexivity].
    unfold decoded.
    destruct (decode_utf8 out); [|reflexivity].
    destruct (decode_utf8 err); reflexivity.
  - unfold decoded.
    destruct (decode_utf8 out); [|reflexivity].
    destruct (decode_utf8 err); reflexivity.
Qed.

Lemma decoded_world code out err w : snd (decoded code out err w) = w.
Proof.
  unfold decoded.
  destruct (decode_utf8 out); [|reflexivity].
  destruct (decode_utf8 err); reflexivity.
Qed.

(** Every call hands exactly one command line to the shell: the encoded
    one. *)
Lemma cmd_spawned (c : string) (args : list string) (kwargs : dict value)
    (w : world) :
  spawned (trace (snd (cmd c args kwargs w)))
  = spawned (trace w) ++ [generate_cmd_string (self w) c args kwargs].
Proof.
  rewrite cmd_unfold. cbv zeta.
  destruct (_ =? 0).
  - destruct (load_file _ _); [rewrite decoded_world|];
      cbn [snd trace]; rewrite !spawned_app; simpl;
      now rewrite !app_nil_r.
  - rewrite decoded_world. cbn [snd trace]. rewrite !spawned_app. simpl.
    now rewrite !app_nil_r.
Qed.

(** What a returning call returned. *)
Lemma cmd_returned (c : string) (args : list string) (kwargs : dict value)
    (w w' : world) (code : Z) (out err : string) :
  cmd c args kwargs w = (Return (code, out, err), w') ->
  let s := generate_cmd_string (self w) c args kwargs in
  let p := popen (trace w ++ [LogDebugCommand s]) s in
  code = fst (fst p)
  /\ decode_utf8 (snd (fst p)) = Return out
  /\ decode_utf8 (snd p) = Return err.
Proof.
  rewrite cmd_unfold. cbv zeta.
  set (p := popen _ _).
  assert (D : forall w0, decoded (fst (fst p)) (snd (fst p)) (snd p) w0
                         = (Return (code, out, err), w') ->
               code = fst (fst p)
               /\ decode_utf8 (snd (fst p)) = Return out
               /\ decode_utf8 (snd p) = Return err).
  { intros w0. unfold decoded.
    destruct (decode_utf8 (snd (fst p))); [|discriminate].
    destruct (decode_utf8 (snd p)); [|discriminate].
    intros H. inversion H. subst. auto. }
  destruct (_ =? 0).
  - destruct (load_file _ _); [apply D|discriminate].
  - apply D.
Qed.

End RunnerProps.

(** ** Strings, tokens and dictionaries *)

Lemma length_append (a b : string) :
  String.length (a ++ b) = (String.length a + String.length b)%nat.
Proof.
  induction a as [|c a IH]; simpl; [reflexivity | now rewrite IH].
Qed.

Lemma append_assoc (a b c : string) :
  ((a ++ b) ++ c = a ++ (b ++ c))%string.
Proof.
  induction a as [|d a IH]; simpl; [reflexivity | now rewrite IH].
Qed.

Lemma substring_whole (b : string) : substring 0 (String.length b) b = b.
Proof.
  induction b as [|c b IH]; simpl; [reflexivity | now rewrite IH].
Qed.

Lemma substring_tail (a b : string) :
  substring (String.length a) (String.length b) (a ++ b) = b.
Proof.
  induction a as [|c a IH]; simpl; [apply substring_whole | exact IH].
Qed.

Lemma ends_with_append (a b : string) : ends_with (a ++ b) b = true.
Proof.
  unfold ends_with. rewrite length_append.
  replace (String.length a + String.length b - String.length b)%nat
    with (String.length a) by lia.
  rewrite substring_tail, String.eqb_refl, andb_true_r.
  apply Nat.leb_le. lia.
Qed.

Lemma before_absent (c : ascii) (n : string) :
  contains c n = false -> before c n = n.
Proof.
  induction n as [|d n IH]; simpl; intros H.
  - reflexivity.
  - apply orb_false_iff in H. destruct H as [Hd Hn].
    rewrite (Ascii.eqb_sym d c), Hd. now rewrite IH.
Qed.

Lemma before_append (c : ascii) (n rest : string) :
  contains c n = false -> before c (n ++ String c rest) = n.
Proof.
  induction n as [|d n IH]; simpl; intros H.
  - now rewrite Ascii.eqb_refl.
  - apply orb_false_iff in H. destruct H as [Hd Hn].
    rewrite (Ascii.eqb_sym d c), Hd. now rewrite IH.
Qed.

Lemma option_name_keeps_absent (c : ascii) (k : string) :
  c <> "-"%char -> contains c k = false -> contains c (option_name k) = false.
Proof.
  intros Hc Hk. unfold option_name.
  destruct (contains "_" k); [now apply replace_keeps_absent | exact Hk].
Qed.

Lemma option_name_input (k : string) : option_name k = "input" -> k = "input".
Proof.
  unfold option_name.
  destruct (contains "_" k) eqn:E; [|easy].
  intros H. apply (replace_introduces "_" "-") in E.
  rewrite H in E. discriminate.
Qed.

(** A token names the option it comes from. *)
Lemma flag_name_entry (k : string) (v : value) (t : string) :
  contains "=" k = false -> In t (entry_tokens k v) ->
  flag_name t = option_name k.
Proof.
  intros Hk.
  assert (Hn : contains "=" (option_name k) = false)
    by (apply option_name_keeps_absent; [discriminate | exact Hk]).
  unfold entry_tokens. revert Hn. generalize (option_name k). intros n Hn.
  destruct v as [a|l|d].
  - destruct (eq_empty_str a).
    + intros [<-|[]]. simpl. now apply before_absent.
    + destruct (negb (truthy a)); [intros []|].
      intros [<-|[]]. simpl. now apply before_append.
  - intros H. apply in_map_iff in H. destruct H as [e [<- _]].
    simpl. now apply before_append.
  - intros H. apply in_map_iff in H. destruct H as [e [<- _]].
    simpl. now apply before_append.
Qed.

Section Dict.

Variable V : Type.
Variable P : string * V -> Prop.

Lemma setitem_Forall (d : dict V) (k : string) (v : V) :
  Forall P d -> P (k, v) -> Forall P (setitem d k v).
Proof.
  intros Hd Hkv.
  induction Hd as [|[k' v'] d Hx Hd IH]; simpl.
  - now constructor.
  - destruct (String.eqb k' k) eqn:E.
    + apply String.eqb_eq in E. subst k'. now constructor.
    + constructor; assumption.
Qed.

Lemma update_Forall (d e : dict V) :
  Forall P d -> Forall P e -> Forall P (update d e).
Proof.
  intros Hd He. revert d Hd. unfold update.
  induction He as [|[k v] e Hx He IH]; intros d Hd; simpl.
  - exact Hd.
  - apply IH. now apply setitem_Forall.
Qed.

Lemma get_setitem_other (d : dict V) (k k' : string) (v : V) :
  k' <> k -> get (setitem d k' v) k = get d k.
Proof.
  intros Hne. induction d as [|[k0 v0] d IH]; simpl.
  - apply String.eqb_neq in Hne. now rewrite Hne.
  - destruct (String.eqb k0 k') eqn:E; simpl.
    + apply String.eqb_eq in E. subst k0.
      apply String.eqb_neq in Hne. now rewrite Hne.
    + now rewrite IH.
Qed.

Lemma get_update_other (d e : dict V) (k : string) :
  Forall (fun k' => k' <> k) (keys e) -> get (update d e) k = get d k.
Proof.
  unfold update, keys. revert d.
  induction e as [|[k' v] e IH]; intros d He; simpl.
  - reflexivity.
  - inversion He as [|? ? Hk He']; subst.
    rewrite (IH _ He'). now apply get_setitem_other.
Qed.

Lemma has_key_setitem (d : dict V) (k k' : string) (v : V) :
  has_key (setitem d k v) k' = has_key d k' || String.eqb k' k.
Proof.
  unfold has_key. induction d as [|[k0 v0] d IH]; cbn.
  - now rewrite orb_false_r.
  - destruct (String.eqb_spec k0 k) as [->|_]; cbn.
    + destruct (String.eqb k' k); [now rewrite orb_true_r|].
      now rewrite orb_false_r.
    + unfold keys in IH. rewrite IH. now rewrite orb_assoc.
Qed.

Lemma has_key_update (d e : dict V) (k : string) :
  has_key (update d e) k = has_key d k || has_key e k.
Proof.
  unfold update. revert d.
  induction e as [|[k' v] e IH]; intros d; cbn [fold_left fst snd].
  - unfold has_key at 3. cbn. now rewrite orb_false_r.
  - rewrite IH, has_key_setitem. unfold has_key at 4. cbn.
    now rewrite orb_assoc.
Qed.

End Dict.

(** ** Claims about what the operations hand to the shell *)

Section CommandClaims.

Context {RT : Runtime}.

(** The defaults of [apply] are not named [self] or [cmd]: the options
    clash with the parameters of [cmd] when the overrides do. *)
Lemma apply_options_clash (tf : Terraform Tfstate) (no_color : bool)
    (kwargs : dict value) :
  keyword_clash (apply_options tf no_color kwargs) = keyword_clash kwargs.
Proof.
  unfold keyword_clash, apply_options. rewrite !has_key_update.
  destruct no_color; reflexivity.
Qed.

(** An override named [self] or [cmd] stops [apply] at the call of line
    64, before anything is logged or spawned. *)
Lemma apply_clash (dir : option string) (no_color : bool)
    (kwargs : dict value) (w : world) :
  keyword_clash kwargs = true ->
  apply dir no_color kwargs w = (Raise TypeError, w).
Proof.
  intros H. unfold apply, bind, get_self, call_cmd.
  now rewrite apply_options_clash, H.
Qed.

(** Without such an override, [apply] is its run followed by the test of
    line 66. *)
Lemma apply_unfold (dir : option string) (no_color : bool)
    (kwargs : dict value) (w : world) :
  keyword_clash kwargs = false ->
  apply dir no_color kwargs w
  = (match fst (cmd "apply" (apply_args (self w) dir)
                    (apply_options (self w) no_color kwargs) w) with
     | Return (ret, _, err) =>
         if negb (ret =? 0) then Raise (RuntimeError err) else Return tt
     | Raise e => Raise e
     end,
     snd (cmd "apply" (apply_args (self w) dir)
              (apply_options (self w) no_color kwargs) w)).
Proof.
  intros H. unfold apply, bind, get_self, call_cmd.
  rewrite apply_options_clash, H.
  destruct (cmd _ _ _ w) as [[[[code out] err]|e] w']; cbn [fst snd].
  - destruct (negb (code =? 0)); reflexivity.
  - reflexivity.
Qed.

(** Raising or returning, [apply] leaves the world as its run left it. *)
Lemma apply_world (dir : option string) (no_color : bool)
    (kwargs : dict value) (w : world) :
  keyword_clash kwargs = false ->
  snd (apply dir no_color kwargs w)
  = snd (cmd "apply" (apply_args (self w) dir)
             (apply_options (self w) no_color kwargs) w).
Proof.
  intros H. now rewrite apply_unfold by exact H.
Qed.

(** The options of [apply] satisfy whatever its seven defaults and the
    caller's overrides satisfy. *)
Lemma apply_options_Forall (P : string * value -> Prop)
    (tf : Terraform Tfstate) (no_color : bool) (kwargs : dict value) :
  (forall k v, In k ["state"; "target"; "var"; "var_file"; "parallelism";
                     "no_color"] -> P (k, v)) ->
  P ("input", VBool (input tf)) ->
  Forall P kwargs ->
  Forall P (apply_options tf no_color kwargs).
Proof.
  intros Hdef Hin Hkw. unfold apply_options.
  apply update_Forall; [|exact Hkw].
  destruct no_color; cbn; repeat constructor;
    try exact Hin; apply Hdef; cbn; tauto.
Qed.

(** C9: on an instance just constructed, whatever the arguments of the
    constructor, [apply] called without an override of [input] (the
    overrides being keyword names, which hold no [=]) passes the entry
    [input = False] to the encoder, which writes no token for it: the one
    command line handed to the shell has the binary, [apply], the option
    tokens and the positional argument, and none of the option tokens
    sets the flag [input].  (An override named [self] or [cmd] stops the
    call before anything is handed to the shell.) *)
Theorem fresh_apply_writes_no_input_token
    (wd : option string) (tgs : option (list atom)) (st : option string)
    (vars : option (list (atom * atom))) (par : option Z)
    (vfile bin : option string)
    (dir : option string) (no_color : bool) (kwargs : dict value)
    (tr : list event) :
  let tf := __init__ wd tgs st vars par vfile bin in
  let options := apply_options tf no_color kwargs in
  Forall (fun k => k <> "input" /\ contains "=" k = false) (keys kwargs) ->
  spawned (trace (snd (apply dir no_color kwargs
                             {| self := tf; trace := tr |})))
  = spawned tr
    ++ (if keyword_clash kwargs then []
        else [join " " ([terraform_bin_path tf; "apply"]
                        ++ option_tokens options ++ apply_args tf dir)])
  /\ get options "input" = Some (VBool false)
  /\ entry_tokens "input" (VBool false) = []
  /\ Forall (fun t => flag_name t <> "input") (option_tokens options).
Proof.
  cbv zeta. intros Hkw.
  set (tf := __init__ _ _ _ _ _ _ _).
  split; [|split; [|split]].
  - destruct (keyword_clash kwargs) eqn:K.
    + rewrite apply_clash by exact K. cbn [snd trace].
      now rewrite app_nil_r.
    + rewrite apply_world by exact K. rewrite cmd_spawned. cbn [self trace].
      unfold generate_cmd_string. rewrite cmd_tokens_order. reflexivity.
  - unfold apply_options. rewrite get_update_other.
    + destruct no_color; reflexivity.
    + eapply Forall_impl; [|exact Hkw]. cbn. intros k [Hk _]. exact Hk.
  - reflexivity.
  - assert (HP : Forall (fun kv => contains "=" (fst kv) = false
                                   /\ (fst kv = "input"
                                       -> snd kv = VBool false))
                        (apply_options tf no_color kwargs)).
    { apply apply_options_Forall.
      - intros k v Hk. cbn in Hk.
        repeat (destruct Hk as [<-|Hk]; [split; [reflexivity|discriminate]|]).
        destruct Hk.
      - split; [reflexivity|]. intros _. reflexivity.
      - unfold keys in Hkw. rewrite Forall_map in Hkw.
        eapply Forall_impl; [|exact Hkw]. cbn.
        intros [k v] [Hne Heq]. cbn in *. split; [exact Heq|]. intros E.
        now elim Hne. }
    apply Forall_forall. intros t Ht.
    unfold option_tokens in Ht. apply in_flat_map in Ht.
    destruct Ht as [[k v] [Hin Ht]]. cbn [fst snd] in Ht.
    rewrite Forall_forall in HP. destruct (HP _ Hin) as [Heq Hval].
    cbn [fst snd] in *.
    rewrite (flag_name_entry k v t Heq Ht). intros E.
    apply option_name_input in E. rewrite (Hval E) in Ht. destruct Ht.
Qed.

End CommandClaims.

Lemma fresh_apply_writes_no_input_token_witness :
  Forall (fun k => k <> "input" /\ contains "=" k = false)
         (keys [("refresh", VStr "true")])
  /\ spawned (trace (snd (@apply Double.failing (Some "dir") true
                                 [("refresh", VStr "true")]
                                 Double.start_failing)))
     = ["terraform apply -var='a=b' -no-color -refresh=true dir"].
Proof.
  assert (H : Forall (fun k => k <> "input" /\ contains "=" k = false)
                     (keys [("refresh", VStr "true")])).
  { constructor; [|constructor]. split; [discriminate|reflexivity]. }
  split; [exact H|].
  exact (proj1 (@fresh_apply_writes_no_input_token Double.failing
                  None None None (Some [(AStr "a", AStr "b")]) None None None
                  (Some "dir") true [("refresh", VStr "true")] [] H)).
Defined.

(** A state file that cannot be read makes a successful run raise: the
    error of the parser is not caught. *)
Example unreadable_state_propagates :
  fst (@cmd (Double.runtime_no_state 0 [] []) "plan" [] []
            (@mkWorld (Double.runtime_no_state 0 [] []) Double.tf []))
  = Raise (OSError "terraform.tfstate").
Proof.
  reflexivity.
Qed.

Section RawRun.

Context {RT : Runtime}.

(** C2, amended: on an instance constructed with [variables={"a":"b"}],
    the raw run of [plan] with no positional argument and no option hands
    the shell the binary and [plan] and nothing else, the variables of the
    instance being left out; given them as the option [var] it hands the
    shell a line that ends in [plan -var='a=b']; and the tokens of every
    raw run come in the order binary, subcommand, options, positionals. *)
Theorem raw_run_encodes_its_own_options_only
    (wd : option string) (tgs : option (list atom)) (st : option string)
    (par : option Z) (vfile bin : option string) (tr : list event) :
  let tf := __init__ wd tgs st (Some [(AStr "a", AStr "b")]) par vfile bin in
  let w := {| self := tf; trace := tr |} in
  spawned (trace (snd (cmd "plan" [] [] w)))
  = spawned tr ++ [(terraform_bin_path tf ++ " plan")%string]
  /\ spawned (trace (snd (cmd "plan" [] [("var", VDict (variables tf))] w)))
     = spawned tr ++ [(terraform_bin_path tf ++ " plan -var='a=b'")%string]
  /\ ends_with (terraform_bin_path tf ++ " plan -var='a=b'")
               "plan -var='a=b'" = true
  /\ forall c args kwargs,
       spawned (trace (snd (cmd c args kwargs w)))
       = spawned tr
         ++ [join " " ([terraform_bin_path tf] ++ split c
                       ++ option_tokens kwargs ++ args)].
Proof.
  cbv zeta. split; [|split; [|split]].
  - now rewrite cmd_spawned.
  - now rewrite cmd_spawned.
  - change " plan -var='a=b'" with (" " ++ "plan -var='a=b'")%string.
    rewrite <- append_assoc. apply ends_with_append.
  - intros c args kwargs. rewrite cmd_spawned. cbn [self trace].
    unfold generate_cmd_string. now rewrite cmd_tokens_order.
Qed.

End RawRun.

(** C2, as stated, fails: the raw run of [plan] on
    [Terraform(variables={'a': 'b'})] hands the shell [terraform plan],
    which does not end in [plan -var='a=b']. *)
Lemma raw_plan_leaves_variables_out :
  spawned (trace (snd (@cmd Double.succeeding "plan" [] []
                            Double.start_succeeding)))
  = ["terraform plan"]
  /\ ~ Forall (fun c => ends_with c "plan -var='a=b'" = true)
              (spawned (trace (snd (@cmd Double.succeeding "plan" [] []
                                         Double.start_succeeding)))).
Proof.
  split; [reflexivity|].
  intros H. inversion H as [|c l Hc Hl E]. discriminate Hc.
Qed.

(** ** Further properties of the encoder *)

Lemma prefix_append (a b : string) : String.prefix a (a ++ b) = true.
Proof.
  induction a as [|c a IH]; simpl.
  - now destruct b.
  - destruct (ascii_dec c c) as [_|N]; [exact IH | now elim N].
Qed.

Lemma join_cons (sep t : string) (l : list string) :
  join sep (t :: l)
  = (t ++ match l with [] => "" | _ => sep ++ join sep l end)%string.
Proof.
  unfold join. destruct l as [|u l]; simpl.
  - induction t as [|c t IH]; simpl; [reflexivity | now rewrite <- IH].
  - reflexivity.
Qed.

(** X1.  Lines 113-123, for a value that is [None], a boolean, an integer
    or a string: [None], [False] and the integer zero are the ones that
    add no token; every other such value adds exactly one. *)
Theorem scalar_option_dropped_iff (k : string) (a : atom) :
  (entry_tokens k (VAtom a) = []
   <-> a = ANone \/ a = ABool false \/ a = AInt 0)
  /\ (entry_tokens k (VAtom a) <> [] ->
      length (entry_tokens k (VAtom a)) = 1%nat).
Proof.
  unfold entry_tokens.
  destruct a as [|[|]|z|s]; cbn [eq_empty_str truthy negb is_bool].
  - split; [split; [auto | reflexivity] | intros H; now elim H].
  - split; [split; [discriminate | intros [H|[H|H]]; discriminate]
           | reflexivity].
  - split; [split; [auto | reflexivity] | intros H; now elim H].
  - destruct (Z.eqb_spec z 0) as [->|Hz]; cbn [negb].
    + split; [split; [auto | reflexivity] | intros H; now elim H].
    + split; [split; [discriminate|] | reflexivity].
      intros [H|[H|H]]; try discriminate. inversion H. now elim Hz.
  - destruct (String.eqb s ""); cbn [negb].
    + split; [split; [discriminate | intros [H|[H|H]]; discriminate]
             | reflexivity].
    + split; [split; [discriminate | intros [H|[H|H]]; discriminate]
             | reflexivity].
Qed.


(** X3.  Lines 96-123: every token the options add begins with a dash, and,
    the keys holding no [=], the flag it sets is the name of one of the
    options given: the encoder invents no flag. *)
Theorem option_tokens_name_given_options (kwargs : dict value) :
  Forall (fun k => contains "=" k = false) (keys kwargs) ->
  Forall (fun t => String.prefix "-" t = true
                   /\ In (flag_name t) (map option_name (keys kwargs)))
         (option_tokens kwargs).
Proof.
  intros Hk. apply Forall_forall. intros t Ht.
  unfold option_tokens in Ht. apply in_flat_map in Ht.
  destruct Ht as [[k v] [Hin Ht]]. cbn [fst snd] in Ht.
  assert (Hkey : In k (keys kwargs)).
  { unfold keys. apply in_map_iff. now exists (k, v). }
  rewrite Forall_forall in Hk.
  split.
  - clear -Ht. unfold entry_tokens in Ht. destruct v as [a|l|d].
    + destruct (eq_empty_str a);
        [destruct Ht as [<-|[]]; apply prefix_append|].
      destruct (negb (truthy a)); [destruct Ht|].
      destruct Ht as [<-|[]]. apply prefix_append.
    + apply in_map_iff in Ht. destruct Ht as [e [<- _]].
      apply prefix_append.
    + apply in_map_iff in Ht. destruct Ht as [e [<- _]].
      apply prefix_append.
  - rewrite (flag_name_entry k v t (Hk k Hkey) Ht).
    now apply in_map.
Qed.

Lemma option_tokens_name_given_options_witness :
  Forall (fun k => contains "=" k = false)
         (keys [("var_file", VStr "a.tfvars"); ("target", VList [AStr "x"])])
  /\ Forall (fun t => String.prefix "-" t = true
                      /\ In (flag_name t) ["var-file"; "target"])
            ["-var-file=a.tfvars"; "-target=x"].
Proof.
  assert (H : Forall (fun k => contains "=" k = false)
                     (keys [("var_file", VStr "a.tfvars");
                            ("target", VList [AStr "x"])])).
  { repeat constructor. }
  split; [exact H|].
  exact (option_tokens_name_given_options
           [("var_file", VStr "a.tfvars"); ("target", VList [AStr "x"])] H).
Defined.

(** ** Reading the encoded string back *)

Lemma append_nil_r (s : string) : (s ++ "")%string = s.
Proof.
  induction s as [|c s IH]; simpl; [reflexivity | now rewrite IH].
Qed.

Lemma split_from_word (t rest : string) (cur : list ascii) :
  no_space t = true ->
  split_from cur (t ++ rest)
  = split_from (rev (list_ascii_of_string t) ++ cur) rest.
Proof.
  revert cur. induction t as [|c t IH]; intros cur H.
  - reflexivity.
  - cbn [no_space] in H. apply andb_true_iff in H. destruct H as [Hc Ht].
    apply negb_true_iff in Hc.
    cbn [append split_from]. rewrite Hc, (IH _ Ht).
    cbn [list_ascii_of_string rev]. now rewrite <- app_assoc.
Qed.

Lemma rev_chars_word (t : string) :
  is_word t = true ->
  no_space t = true
  /\ exists c cur, rev (list_ascii_of_string t) = c :: cur
                   /\ string_of_list_ascii (rev (c :: cur)) = t.
Proof.
  unfold is_word. intros H. apply andb_true_iff in H. destruct H as [Hne Hs].
  split; [exact Hs|].
  destruct (rev (list_ascii_of_string t)) as [|c cur] eqn:E.
  - apply (f_equal (@rev ascii)) in E. rewrite rev_involutive in E.
    destruct t; [discriminate Hne | discriminate E].
  - exists c, cur. split; [reflexivity|].
    rewrite <- E, rev_involutive. apply string_of_list_ascii_of_string.
Qed.

Lemma split_word_then (t rest : string) :
  is_word t = true ->
  split_from [] (t ++ String " " rest) = t :: split_from [] rest.
Proof.
  intros H. destruct (rev_chars_word t H) as [Hs [c [cur [E Et]]]].
  rewrite (@split_from_word _ _ _ Hs), app_nil_r, E.
  cbn [split_from]. change (isspace " ") with true. cbn iota.
  now rewrite Et.
Qed.

Lemma split_word_end (t : string) :
  is_word t = true -> split_from [] t = [t].
Proof.
  intros H. destruct (rev_chars_word t H) as [Hs [c [cur [E Et]]]].
  rewrite <- (append_nil_r t) at 1.
  rewrite (@split_from_word _ _ _ Hs), app_nil_r, E.
  cbn [split_from]. now rewrite Et.
Qed.

(** Splitting undoes joining with one space, on words. *)
Lemma split_join (l : list string) :
  Forall (fun t => is_word t = true) l -> split (join " " l) = l.
Proof.
  unfold split. induction 1 as [|t l Ht Hl IH].
  - reflexivity.
  - rewrite join_cons. destruct l as [|u l].
    + rewrite append_nil_r. now apply split_word_end.
    + change (" " ++ join " " (u :: l))%string
        with (String " " (join " " (u :: l))).
      rewrite (@split_word_then _ _ Ht). now rewrite IH.
Qed.

Lemma no_space_chars (l : list ascii) :
  no_space (string_of_list_ascii l)
  = forallb (fun c => negb (isspace c)) l.
Proof.
  induction l as [|c l IH]; simpl; [reflexivity | now rewrite IH].
Qed.

Lemma run_is_word (c : ascii) (cur : list ascii) :
  forallb (fun c => negb (isspace c)) (c :: cur) = true ->
  is_word (string_of_list_ascii (rev (c :: cur))) = true.
Proof.
  intros H. unfold is_word. apply andb_true_iff. split.
  - destruct (rev (c :: cur)) as [|d l] eqn:E; [|reflexivity].
    apply (f_equal (@rev ascii)) in E. rewrite rev_involutive in E.
    discriminate E.
  - rewrite no_space_chars. apply forallb_forall. intros d Hd.
    apply in_rev in Hd. rewrite forallb_forall in H. now apply H.
Qed.

(** What [split] returns are words. *)
Lemma split_from_words (s : string) (cur : list ascii) :
  forallb (fun c => negb (isspace c)) cur = true ->
  Forall (fun t => is_word t = true) (split_from cur s).
Proof.
  revert cur. induction s as [|c s IH]; intros cur H.
  - destruct cur as [|d cur]; cbn [split_from]; [constructor|].
    constructor; [now apply run_is_word | constructor].
  - cbn [split_from]. destruct (isspace c) eqn:Ec.
    + apply Forall_app. split; [|now apply IH].
      destruct cur as [|d cur]; [constructor|].
      constructor; [now apply run_is_word | constructor].
    + apply IH. cbn [forallb]. now rewrite Ec, H.
Qed.

(** X4.  Lines 93-126, read back: when the binary, the option tokens and the
    positional arguments are words, splitting the encoded string on
    whitespace gives back the binary, the subcommand words, the option
    tokens and the positional arguments, in this order, however the
    subcommand was spaced. *)
Theorem split_recovers_the_tokens (S : Type) (self : Terraform S)
    (cmd : string) (args : list string) (kwargs : dict value) :
  is_word (terraform_bin_path self) = true ->
  Forall (fun t => is_word t = true) (option_tokens kwargs) ->
  Forall (fun t => is_word t = true) args ->
  split (generate_cmd_string self cmd args kwargs)
  = [terraform_bin_path self] ++ split cmd ++ option_tokens kwargs ++ args.
Proof.
  intros Hb Ho Ha. unfold generate_cmd_string.
  rewrite cmd_tokens_order. apply split_join.
  apply Forall_app. split; [now repeat constructor|].
  apply Forall_app. split; [now apply split_from_words|].
  apply Forall_app. now split.
Qed.

Lemma split_recovers_the_tokens_witness :
  is_word (terraform_bin_path (@default unit)) = true
  /\ Forall (fun t => is_word t = true)
            (option_tokens [("no_color", VStr "");
                            ("var", VDict [(AStr "a", AStr "b")])])
  /\ Forall (fun t => is_word t = true) ["dir"]
  /\ split (generate_cmd_string (@default unit) "  state   list " ["dir"]
              [("no_color", VStr "");
               ("var", VDict [(AStr "a", AStr "b")])])
     = ["terraform"; "state"; "list"; "-no-color"; "-var='a=b'"; "dir"].
Proof.
  assert (Hb : is_word (terraform_bin_path (@default unit)) = true)
    by reflexivity.
  assert (Ho : Forall (fun t => is_word t = true)
                      (option_tokens [("no_color", VStr "");
                                      ("var", VDict [(AStr "a", AStr "b")])]))
    by (repeat constructor).
  assert (Ha : Forall (fun t => is_word t = true) ["dir"])
    by (repeat constructor).
  split; [exact Hb|]. split; [exact Ho|]. split; [exact Ha|].
  exact (@split_recovers_the_tokens unit default "  state   list " ["dir"]
           [("no_color", VStr ""); ("var", VDict [(AStr "a", AStr "b")])]
           Hb Ho Ha).
Defined.

(** ** The state file *)

Lemma path_join_nonempty (a b : string) : b <> "" -> path_join a b <> "".
Proof.
  intros Hb. unfold path_join.
  destruct b as [|c b]; [now elim Hb|].
  assert (H : forall x y : string, y <> "" -> (x ++ y)%string <> "").
  { intros x y Hy. destruct x; [exact Hy | discriminate]. }
  destruct (Ascii.eqb_spec c "/") as [->|Hc].
  - discriminate.
  - assert (G : (if (a =? "")%string || endswith a "/"
                 then (a ++ String c b)%string
                 else (a ++ "/" ++ String c b)%string) <> "").
    { destruct ((a =? "")%string || endswith a "/");
        apply H; discriminate. }
    destruct c as [[] [] [] [] [] [] [] []]; try exact G.
    now elim Hc.
Qed.

(** X6.  Lines 181-190: the path handed to the parser is never empty.  Without
    a working directory it is the argument if there is one, else the state
    path of the instance if there is one, else [terraform.tfstate]. *)
Theorem state_file_path_choice (S : Type) (self : Terraform S)
    (file_path : option string) :
  state_file_path self file_path <> ""
  /\ (truthy_opt (working_dir self) = false ->
      state_file_path self file_path
      = match file_path, state self with
        | Some p, Some q =>
            if negb (p =? "")%string then p
            else if negb (q =? "")%string then q else "terraform.tfstate"
        | Some p, None =>
            if negb (p =? "")%string then p else "terraform.tfstate"
        | None, Some q =>
            if negb (q =? "")%string then q else "terraform.tfstate"
        | None, None => "terraform.tfstate"
        end).
Proof.
  unfold state_file_path.
  set (chosen :=
         match (if negb (truthy_opt file_path) then state self
                else file_path) with
         | Some p => if negb (truthy_opt (Some p)) then "terraform.tfstate"
                     else p
         | None => "terraform.tfstate"
         end).
  assert (Hc : chosen <> "").
  { unfold chosen.
    destruct (if negb (truthy_opt file_path) then state self else file_path)
      as [p|]; [|discriminate].
    cbn [truthy_opt]. destruct (String.eqb_spec p ""); cbn [negb];
      [discriminate | assumption]. }
  split.
  - destruct (working_dir self) as [wd|]; [|exact Hc].
    destruct (truthy_opt (Some wd)); [now apply path_join_nonempty|exact Hc].
  - intros Hwd.
    assert (E : match working_dir self with
                | Some wd => if truthy_opt (Some wd) then path_join wd chosen
                             else chosen
                | None => chosen
                end = chosen).
    { destruct (working_dir self) as [wd|]; [|reflexivity].
      now rewrite Hwd. }
    rewrite E. unfold chosen.
    destruct file_path as [p|], (state self) as [q|]; cbn [truthy_opt];
      try destruct (p =? "")%string eqn:Ep;
      try destruct (q =? "")%string eqn:Eq;
      cbn [negb truthy_opt]; rewrite ?Ep, ?Eq; cbn [negb]; reflexivity.
Qed.

Lemma state_file_path_choice_witness :
  truthy_opt (working_dir (@default unit)) = false
  /\ state_file_path (@default unit) (Some "other.tfstate") = "other.tfstate"
  /\ state_file_path (@default unit) None = "terraform.tfstate".
Proof.
  assert (H : truthy_opt (working_dir (@default unit)) = false)
    by reflexivity.
  split; [exact H|]. split.
  - exact (proj2 (@state_file_path_choice unit default
                    (Some "other.tfstate")) H).
  - exact (proj2 (@state_file_path_choice unit default None) H).
Defined.



(** ** Further properties of the runner *)

Lemma with_tfstate_same (S : Type) (s : Terraform S) :
  with_tfstate s (tfstate s) = s.
Proof.
  now destruct s.
Qed.

Section RunnerWorld.

Context {RT : Runtime}.

(** The world a run leaves, whether it returns or raises. *)
Lemma cmd_world (c : string) (args : list string) (kwargs : dict value)
    (w : world) :
  let s := generate_cmd_string (self w) c args kwargs in
  let tr1 := trace w ++ [LogDebugCommand s] in
  let code := fst (fst (popen tr1 s)) in
  let out := snd (fst (popen tr1 s)) in
  let err := snd (popen tr1 s) in
  let tr2 := (tr1 ++ [Popen s]) ++ [LogDebugOutput out] in
  let path := state_file_path (self w) None in
  snd (cmd c args kwargs w)
  = {| self := if code =? 0
               then match load_file tr2 path with
                    | Return t => with_tfstate (self w) (Loaded t)
                    | Raise _ => self w
                    end
               else self w;
       trace := trace w
                ++ [LogDebugCommand s; Popen s; LogDebugOutput out;
                    if code =? 0 then LoadFile path else LogWarnError err] |}.
Proof.
  cbv zeta. rewrite cmd_unfold. cbv zeta.
  destruct (_ =? 0).
  - destruct (load_file _ _); [rewrite decoded_world|]; cbn [snd];
      now rewrite <- !app_assoc.
  - rewrite decoded_world. now rewrite <- !app_assoc.
Qed.

(** Raising or returning, [output] leaves the world as its run left it. *)
Lemma output_world (name : string) (w : world) :
  snd (output name w) = snd (cmd "output" [name] [("json", VStr "")] w).
Proof.
  unfold output, bind.
  destruct (cmd _ _ _ w) as [[[[code out] err]|e] w']; cbn [snd].
  - destruct (negb (code =? 0)); [reflexivity|].
    unfold lift. destruct (json_loads _); reflexivity.
  - reflexivity.
Qed.

(** A run that returned exit code 0 has replaced the snapshot. *)
Lemma cmd_returned_zero (c : string) (args : list string)
    (kwargs : dict value) (w w' : world) (out err : string) :
  cmd c args kwargs w = (Return (0, out, err), w') ->
  exists t, self w' = with_tfstate (self w) (Loaded t).
Proof.
  intros H.
  pose proof (cmd_returned _ _ _ _ H) as [Hcode _]. cbv zeta in Hcode.
  pose proof (cmd_world c args kwargs w) as W. cbv zeta in W.
  rewrite H in W. cbn [snd] in W. rewrite <- Hcode in W. cbn [Z.eqb] in W.
  rewrite cmd_unfold in H. cbv zeta in H. rewrite <- Hcode in H.
  cbn [Z.eqb] in H.
  destruct (load_file _ _) as [t|e]; [|discriminate H].
  exists t. now rewrite W.
Qed.

(** X8.  Lines 129-190: no operation touches the configuration of the
    instance.  After [cmd], [apply], [output] or [read_state_file],
    returning or raising, every attribute but the snapshot is what it
    was. *)
Theorem operations_keep_the_configuration (w : world) :
  (forall c args kwargs,
      self (snd (cmd c args kwargs w))
      = with_tfstate (self w) (tfstate (self (snd (cmd c args kwargs w)))))
  /\ (forall dir no_color kwargs,
      self (snd (apply dir no_color kwargs w))
      = with_tfstate (self w)
          (tfstate (self (snd (apply dir no_color kwargs w)))))
  /\ (forall name,
      self (snd (output name w))
      = with_tfstate (self w) (tfstate (self (snd (output name w)))))
  /\ (forall file_path,
      self (snd (read_state_file file_path w))
      = with_tfstate (self w)
          (tfstate (self (snd (read_state_file file_path w))))).
Proof.
  assert (C : forall c args kwargs,
             self (snd (cmd c args kwargs w))
             = with_tfstate (self w)
                 (tfstate (self (snd (cmd c args kwargs w))))).
  { intros c args kwargs.
    pose proof (cmd_world c args kwargs w) as W. cbv zeta in W.
    rewrite W. cbn [self].
    destruct (_ =? 0); [|now rewrite with_tfstate_same].
    destruct (load_file _ _); [reflexivity | now rewrite with_tfstate_same]. }
  split; [exact C|]. split; [|split].
  - intros dir no_color kwargs. destruct (keyword_clash kwargs) eqn:K.
    + rewrite apply_clash by exact K. cbn [snd].
      now rewrite with_tfstate_same.
    + rewrite apply_world by exact K. apply C.
  - intros name. rewrite output_world. apply C.
  - intros file_path.
    unfold read_state_file, bind, get_self, call_load_file, set_tfstate.
    cbn [self trace].
    destruct (load_file _ _); cbn [snd self];
      [reflexivity | now rewrite with_tfstate_same].
Qed.


End RunnerWorld.

Section Outcomes.

Context {RT : Runtime}.


(** X11.  Lines 153-157: the streams are decoded after the state is read.  A
    run that exits with 0 and whose standard output does not decode
    raises the error of the codec with the snapshot already replaced; a
    run that exits with a non-zero code and one of whose streams does not
    decode raises too, and the exit code is not returned. *)
Theorem cmd_raises_after_the_refresh (c : string) (args : list string)
    (kwargs : dict value) (w : world) :
  let s := generate_cmd_string (self w) c args kwargs in
  let tr1 := trace w ++ [LogDebugCommand s] in
  let code := fst (fst (popen tr1 s)) in
  let out := snd (fst (popen tr1 s)) in
  let err := snd (popen tr1 s) in
  let tr2 := (tr1 ++ [Popen s]) ++ [LogDebugOutput out] in
  let path := state_file_path (self w) None in
  (code = 0 ->
   forall t x, load_file tr2 path = Return t -> decode_utf8 out = Raise x ->
     cmd c args kwargs w
     = (Raise x, {| self := with_tfstate (self w) (Loaded t);
                    trace := tr2 ++ [LoadFile path] |}))
  /\ (code <> 0 ->
      forall x, decode_utf8 out = Raise x ->
        fst (cmd c args kwargs w) = Raise x)
  /\ (code <> 0 ->
      forall o x, decode_utf8 out = Return o -> decode_utf8 err = Raise x ->
        fst (cmd c args kwargs w) = Raise x).
Proof.
  cbv zeta. rewrite cmd_unfold. cbv zeta.
  split; [|split].
  - intros Hc t x Ht Hx. rewrite Hc. cbn [Z.eqb]. rewrite Ht.
    unfold decoded. now rewrite Hx.
  - intros Hc x Hx. apply Z.eqb_neq in Hc. rewrite Hc.
    unfold decoded. now rewrite Hx.
  - intros Hc o x Ho Hx. apply Z.eqb_neq in Hc. rewrite Hc.
    unfold decoded. now rewrite Ho, Hx.
Qed.

(** X12.  Lines 165-172: what [output] does with a successful run whose output
    is not the expected document.  The error of the JSON decoder goes
    through; a document that is not an object raises [TypeError]; an
    object without the key [value] raises [KeyError]; and in each case
    the snapshot has been replaced by the run. *)
Theorem output_raises_without_value (name : string) (w w' : world)
    (out err : string) :
  cmd "output" [name] [("json", VStr "")] w = (Return (0, out, err), w') ->
  (forall x, json_loads (lstrip out) = Raise x ->
             output name w = (Raise x, w'))
  /\ (forall d, json_loads (lstrip out) = Return (JObj d) ->
                get d "value" = None ->
                output name w = (Raise (KeyError "value"), w'))
  /\ (forall doc, json_loads (lstrip out) = Return doc ->
                  (forall d, doc <> JObj d) ->
                  output name w = (Raise TypeError, w'))
  /\ exists t, self w' = with_tfstate (self w) (Loaded t).
Proof.
  intros H. unfold output, bind. rewrite H. cbn [Z.eqb negb]. unfold lift.
  split; [|split; [|split]].
  - intros x Hx. now rewrite Hx.
  - intros d Hd Hv. rewrite Hd. cbn [getitem]. now rewrite Hv.
  - intros doc Hdoc Hobj. rewrite Hdoc.
    destruct doc; try reflexivity. now elim (Hobj d).
  - exact (cmd_returned_zero _ _ _ _ H).
Qed.

End Outcomes.

Lemma cmd_raises_after_the_refresh_witness :
  @cmd (Double.runtime 0 [Byte.xff] [] (Raise (ValueError ""))) "plan" [] []
       (@mkWorld (Double.runtime 0 [Byte.xff] [] (Raise (ValueError "")))
                 Double.tf [])
  = (Raise UnicodeDecodeError,
     @mkWorld (Double.runtime 0 [Byte.xff] [] (Raise (ValueError "")))
       (with_tfstate Double.tf (Loaded "terraform.tfstate"))
       [LogDebugCommand "terraform plan"; Popen "terraform plan";
        LogDebugOutput [Byte.xff]; LoadFile "terraform.tfstate"]).
Proof.
  pose proof (@cmd_raises_after_the_refresh
                (Double.runtime 0 [Byte.xff] [] (Raise (ValueError "")))
                "plan" [] []
                (@mkWorld (Double.runtime 0 [Byte.xff] []
                                          (Raise (ValueError "")))
                          Double.tf [])) as H.
  cbv zeta in H. destruct H as [H _].
  exact (H eq_refl "terraform.tfstate" UnicodeDecodeError eq_refl eq_refl).
Defined.

Lemma output_raises_without_value_witness :
  fst (@cmd (Double.runtime 0 [] [] (Return (JObj [("sensitive", JBool false)])))
            "output" ["ip"] [("json", VStr "")]
            (@mkWorld (Double.runtime 0 [] []
                         (Return (JObj [("sensitive", JBool false)])))
                      Double.tf []))
  = Return (0, "", "")
  /\ fst (@output (Double.runtime 0 [] []
                     (Return (JObj [("sensitive", JBool false)])))
                  "ip"
                  (@mkWorld (Double.runtime 0 [] []
                               (Return (JObj [("sensitive", JBool false)])))
                            Double.tf []))
     = Raise (KeyError "value").
Proof.
  split; [reflexivity|].
  pose proof (@output_raises_without_value
                (Double.runtime 0 [] []
                   (Return (JObj [("sensitive", JBool false)])))
                "ip"
                (@mkWorld (Double.runtime 0 [] []
                             (Return (JObj [("sensitive", JBool false)])))
                          Double.tf [])
                (snd (@cmd (Double.runtime 0 [] []
                              (Return (JObj [("sensitive", JBool false)])))
                           "output" ["ip"] [("json", VStr "")]
                           (@mkWorld (Double.runtime 0 [] []
                               (Return (JObj [("sensitive", JBool false)])))
                                     Double.tf [])))
                "" "" eq_refl) as H.
  destruct H as [_ [H _]].
  rewrite (H [("sensitive", JBool false)] eq_refl eq_refl). reflexivity.
Defined.

(** ** Overrides *)

Section Overrides.

Variable V : Type.







End Overrides.

Section ApplyOverrides.

Variable S : Type.
Variable self : Terraform S.


End ApplyOverrides.


Lemma scalar_option_dropped_iff_witness :
  entry_tokens "parallelism" (VInt 0) = []
  /\ entry_tokens "parallelism" (VInt 4) <> []
  /\ length (entry_tokens "parallelism" (VInt 4)) = 1%nat.
Proof.
  assert (H : entry_tokens "parallelism" (VInt 4) <> []) by discriminate.
  split; [|split; [exact H|]].
  - apply (proj1 (scalar_option_dropped_iff "parallelism" (AInt 0))).
    right. right. reflexivity.
  - exact (proj2 (scalar_option_dropped_iff "parallelism" (AInt 4)) H).
Defined.

(** ** The directory of [apply] and the directory of the state *)

Lemma join_snoc (l : list string) (d : string) :
  l <> [] -> join " " (l ++ [d]) = (join " " l ++ " " ++ d)%string.
Proof.
  induction l as [|t l IH]; intros Hl; [now elim Hl|].
  destruct l as [|u l].
  - reflexivity.
  - change (join " " ((t :: u :: l) ++ [d]))
      with (t ++ " " ++ join " " ((u :: l) ++ [d]))%string.
    rewrite IH by discriminate.
    change (join " " (t :: u :: l))
      with (t ++ " " ++ join " " (u :: l))%string.
    rewrite append_assoc. reflexivity.
Qed.

Section ApplyDirectory.

Context {RT : Runtime}.

(** X15.  Lines 47-48, 62 and 181-188: the directory given to [apply] is the
    last word of the command line, but not where the state is looked for.
    On an instance without working directory and without state path,
    [apply] with a directory runs the tool on that directory and, the run
    exiting with 0, reads [terraform.tfstate] as it stands, not under the
    directory.  (An override named [self] or [cmd] stops the call with
    [TypeError] before that.) *)
Theorem apply_directory_is_not_the_state_directory (d : string)
    (no_color : bool) (kwargs : dict value) (w : world) :
  working_dir (self w) = None -> state (self w) = None -> d <> "" ->
  let s := generate_cmd_string (self w) "apply" [d]
             (apply_options (self w) no_color kwargs) in
  let tr1 := trace w ++ [LogDebugCommand s] in
  ends_with s (" " ++ d) = true
  /\ (keyword_clash kwargs = false ->
      fst (fst (popen tr1 s)) = 0 ->
      trace (snd (apply (Some d) no_color kwargs w))
      = trace w
        ++ [LogDebugCommand s; Popen s;
            LogDebugOutput (snd (fst (popen tr1 s)));
            LoadFile "terraform.tfstate"])
  /\ (keyword_clash kwargs = true ->
      apply (Some d) no_color kwargs w = (Raise TypeError, w)).
Proof.
  intros Hwd Hst Hd. cbv zeta. split; [|split].
  - unfold generate_cmd_string. rewrite cmd_tokens_order.
    set (o := option_tokens _). set (b := terraform_bin_path _).
    replace ([b] ++ split "apply" ++ o ++ [d])
      with ((b :: split "apply" ++ o) ++ [d])
      by (cbn [app]; now rewrite <- app_assoc).
    rewrite join_snoc by discriminate.
    apply ends_with_append.
  - intros K Hc.
    assert (A : apply_args (self w) (Some d) = [d]).
    { unfold apply_args. apply String.eqb_neq in Hd.
      cbn [truthy_opt]. rewrite Hd. cbn [negb truthy_opt].
      now rewrite Hd. }
    rewrite apply_world by exact K. rewrite A.
    pose proof (cmd_world "apply" [d]
                  (apply_options (self w) no_color kwargs) w) as W.
    cbv zeta in W. rewrite W. cbn [trace]. rewrite Hc. cbn [Z.eqb].
    unfold state_file_path. rewrite Hwd, Hst. reflexivity.
  - intros K. now apply apply_clash.
Qed.

End ApplyDirectory.

Lemma apply_directory_is_not_the_state_directory_witness :
  trace (snd (@apply Double.succeeding (Some "infra") true []
                     Double.start_succeeding))
  = [LogDebugCommand "terraform apply -var='a=b' -no-color infra";
     Popen "terraform apply -var='a=b' -no-color infra";
     LogDebugOutput (Double.bytes_of " {}");
     LoadFile "terraform.tfstate"].
Proof.
  assert (Hd : "infra" <> "") by discriminate.
  exact (proj1 (proj2 (@apply_directory_is_not_the_state_directory
                         Double.succeeding "infra" true []
                         Double.start_succeeding eq_refl eq_refl Hd))
               eq_refl eq_refl).
Defined.

(** ** The runner, the streams and the state file *)

Section RunnerClaims.

Context {RT : Runtime}.

(** What a run gives back, by exit code, state file and streams. *)
Lemma cmd_result (c : string) (args : list string) (kwargs : dict value)
    (w : world) :
  let s := generate_cmd_string (self w) c args kwargs in
  let tr1 := trace w ++ [LogDebugCommand s] in
  let code := fst (fst (popen tr1 s)) in
  let out := snd (fst (popen tr1 s)) in
  let err := snd (popen tr1 s) in
  let tr2 := (tr1 ++ [Popen s]) ++ [LogDebugOutput out] in
  let streams :=
    match decode_utf8 out with
    | Raise x => Raise x
    | Return o =>
        match decode_utf8 err with
        | Raise x => Raise x
        | Return e => Return (code, o, e)
        end
    end in
  fst (cmd c args kwargs w)
  = if code =? 0
    then match load_file tr2 (state_file_path (self w) None) with
         | Raise x => Raise x
         | Return _ => streams
         end
    else streams.
Proof.
  cbv zeta. rewrite cmd_unfold. cbv zeta.
  set (p := popen _ _).
  assert (D : forall w0,
             fst (decoded (fst (fst p)) (snd (fst p)) (snd p) w0)
             = match decode_utf8 (snd (fst p)) with
               | Raise x => Raise x
               | Return o =>
                   match decode_utf8 (snd p) with
                   | Raise x => Raise x
                   | Return e => Return (fst (fst p), o, e)
                   end
               end).
  { intros w0. unfold decoded.
    destruct (decode_utf8 (snd (fst p))); [|reflexivity].
    destruct (decode_utf8 (snd p)); reflexivity. }
  destruct (_ =? 0).
  - destruct (load_file _ _); [apply D | reflexivity].
  - apply D.
Qed.

(** [output] is its run followed by lines 167-172. *)
Lemma output_unfold (name : string) (w : world) :
  output name w
  = (match fst (cmd "output" [name] [("json", VStr "")] w) with
     | Return (ret, out, _) =>
         if negb (ret =? 0) then Return JNull
         else match json_loads (lstrip out) with
              | Return output_dict => getitem output_dict "value"
              | Raise x => Raise x
              end
     | Raise e => Raise e
     end,
     snd (cmd "output" [name] [("json", VStr "")] w)).
Proof.
  unfold output, bind.
  destruct (cmd _ _ _ w) as [[[[code out] err]|e] w']; cbn [fst snd].
  - destruct (negb (code =? 0)); [reflexivity|].
    unfold lift. destruct (json_loads _); reflexivity.
  - reflexivity.
Qed.

(** C3, amended: a run whose child process exits with code 0 makes
    exactly one state-reload attempt; the snapshot becomes what the load
    returned, and when the load raises its error goes to the caller with
    the snapshot as it was.  A run whose child process exits with another
    code makes no attempt and leaves the snapshot, and the whole instance,
    as it was; it returns the exit code with the decoded standard output
    and standard error when both decode, and raises the error of the
    codec when one of them does not. *)
Theorem cmd_reloads_state_on_exit_zero_only (c : string)
    (args : list string) (kwargs : dict value) (w : world) :
  let s := generate_cmd_string (self w) c args kwargs in
  let tr1 := trace w ++ [LogDebugCommand s] in
  let code := fst (fst (popen tr1 s)) in
  let out := snd (fst (popen tr1 s)) in
  let err := snd (popen tr1 s) in
  let load :=
    load_file ((tr1 ++ [Popen s]) ++ [LogDebugOutput out])
              (state_file_path (self w) None) in
  let r := fst (cmd c args kwargs w) in
  let w' := snd (cmd c args kwargs w) in
  (code = 0 ->
     reloads (trace w') = Datatypes.S (reloads (trace w))
     /\ (forall t, load = Return t -> tfstate (self w') = Loaded t)
     /\ (forall x, load = Raise x ->
                   r = Raise x /\ tfstate (self w') = tfstate (self w)))
  /\ (code <> 0 ->
     reloads (trace w') = reloads (trace w)
     /\ tfstate (self w') = tfstate (self w)
     /\ self w' = self w
     /\ (forall o e,
          decode_utf8 out = Return o -> decode_utf8 err = Return e ->
          r = Return (code, o, e))
     /\ (forall x, decode_utf8 out = Raise x -> r = Raise x)
     /\ (forall o x,
          decode_utf8 out = Return o -> decode_utf8 err = Raise x ->
          r = Raise x)).
Proof.
  cbv zeta.
  pose proof (cmd_world c args kwargs w) as W. cbv zeta in W.
  pose proof (cmd_result c args kwargs w) as R. cbv zeta in R.
  rewrite W, R. cbn [self trace].
  set (s := generate_cmd_string _ _ _ _).
  set (p := popen _ _).
  split; intros Hcode.
  - rewrite Hcode. cbn [Z.eqb].
    split; [|split].
    + rewrite reloads_app. cbn. lia.
    + intros t Ht. rewrite Ht. reflexivity.
    + intros x Hx. rewrite Hx. split; reflexivity.
  - apply Z.eqb_neq in Hcode. rewrite Hcode.
    split; [|split; [|split; [|split; [|split]]]].
    + rewrite reloads_app. cbn. lia.
    + reflexivity.
    + reflexivity.
    + intros o e Ho He. now rewrite Ho, He.
    + intros x Hx. now rewrite Hx.
    + intros o x Ho Hx. now rewrite Ho, Hx.
Qed.

(** C4, amended: no override being named [self] or [cmd], when the child
    process exits with a non-zero code and both streams decode, [apply]
    raises [RuntimeError] with the decoded standard error as its message;
    when it exits with code 0, the state file loads and both streams
    decode, [apply] returns; when it exits with code 0 and the state file
    does not load, [apply] raises the error of the parser.  Said of the
    run: whenever the run [apply] makes returns, [apply] raises
    [RuntimeError] with the returned standard error for a non-zero exit
    code and returns for exit code 0. *)
Theorem apply_raises_or_returns (dir : option string) (no_color : bool)
    (kwargs : dict value) (w : world) :
  keyword_clash kwargs = false ->
  let args := apply_args (self w) dir in
  let options := apply_options (self w) no_color kwargs in
  let s := generate_cmd_string (self w) "apply" args options in
  let tr1 := trace w ++ [LogDebugCommand s] in
  let code := fst (fst (popen tr1 s)) in
  let out := snd (fst (popen tr1 s)) in
  let err := snd (popen tr1 s) in
  let load :=
    load_file ((tr1 ++ [Popen s]) ++ [LogDebugOutput out])
              (state_file_path (self w) None) in
  (code <> 0 ->
   forall o e, decode_utf8 out = Return o -> decode_utf8 err = Return e ->
     fst (apply dir no_color kwargs w) = Raise (RuntimeError e))
  /\ (code = 0 ->
      forall t o e, load = Return t ->
        decode_utf8 out = Return o -> decode_utf8 err = Return e ->
        fst (apply dir no_color kwargs w) = Return tt)
  /\ (code = 0 ->
      forall x, load = Raise x ->
        fst (apply dir no_color kwargs w) = Raise x)
  /\ (forall code' o e w',
      cmd "apply" args options w = (Return (code', o, e), w') ->
      decode_utf8 err = Return e
      /\ (code' <> 0 ->
          apply dir no_color kwargs w = (Raise (RuntimeError e), w'))
      /\ (code' = 0 -> apply dir no_color kwargs w = (Return tt, w'))).
Proof.
  intros K. cbv zeta. rewrite apply_unfold by exact K. cbn [fst].
  pose proof (cmd_result "apply" (apply_args (self w) dir)
                (apply_options (self w) no_color kwargs) w) as R.
  cbv zeta in R.
  split; [|split; [|split]].
  - intros Hc o e Ho He. rewrite R. apply Z.eqb_neq in Hc.
    rewrite Hc, Ho, He. now rewrite Hc.
  - intros Hc t o e Ht Ho He. rewrite R, Hc. cbn [Z.eqb].
    now rewrite Ht, Ho, He.
  - intros Hc x Hx. rewrite R, Hc. cbn [Z.eqb]. now rewrite Hx.
  - intros code' o e w' H.
    split; [apply (cmd_returned _ _ _ _ H)|].
    rewrite H. cbn [fst snd]. split; intros Hc.
    + apply Z.eqb_neq in Hc. now rewrite Hc.
    + subst code'. reflexivity.
Qed.

(** C8, amended: [output] runs [output -json <name>].  When the child
    process exits with a non-zero code and both streams decode, [output]
    returns [None]; when it exits with code 0, the state file loads and
    both streams decode, [output] decodes the standard output, leading
    whitespace removed, as JSON and returns what the document holds under
    the key [value].  When a stream does not decode, or the exit code is 0
    and the state file does not load, [output] raises that error. *)
Theorem output_decodes_value_or_returns_none (name : string) (w : world) :
  let s := generate_cmd_string (self w) "output" [name]
             [("json", VStr "")] in
  let tr1 := trace w ++ [LogDebugCommand s] in
  let code := fst (fst (popen tr1 s)) in
  let out := snd (fst (popen tr1 s)) in
  let err := snd (popen tr1 s) in
  let load :=
    load_file ((tr1 ++ [Popen s]) ++ [LogDebugOutput out])
              (state_file_path (self w) None) in
  let r := fst (output name w) in
  s = join " " [terraform_bin_path (self w); "output"; "-json"; name]
  /\ (code <> 0 ->
      forall o e, decode_utf8 out = Return o -> decode_utf8 err = Return e ->
        r = Return JNull)
  /\ (code = 0 ->
      forall t o e, load = Return t ->
        decode_utf8 out = Return o -> decode_utf8 err = Return e ->
        r = match json_loads (lstrip o) with
            | Return output_dict => getitem output_dict "value"
            | Raise x => Raise x
            end
        /\ forall d v, json_loads (lstrip o) = Return (JObj d) ->
                       get d "value" = Some v -> r = Return v)
  /\ (forall x, decode_utf8 out = Raise x ->
        code <> 0 \/ (exists t, load = Return t) -> r = Raise x)
  /\ (forall o x, decode_utf8 out = Return o -> decode_utf8 err = Raise x ->
        code <> 0 \/ (exists t, load = Return t) -> r = Raise x)
  /\ (code = 0 -> forall x, load = Raise x -> r = Raise x).
Proof.
  cbv zeta. rewrite output_unfold. cbn [fst].
  pose proof (cmd_result "output" [name] [("json", VStr "")] w) as R.
  cbv zeta in R. rewrite R. clear R.
  set (s := generate_cmd_string _ _ _ _).
  set (p := popen _ _).
  split; [reflexivity|].
  split; [|split; [|split; [|split]]].
  - intros Hc o e Ho He. apply Z.eqb_neq in Hc.
    rewrite Hc, Ho, He. now rewrite Hc.
  - intros Hc t o e Ht Ho He. rewrite Hc. cbn [Z.eqb].
    rewrite Ht, Ho, He. cbn [Z.eqb negb].
    split; [reflexivity|].
    intros d v Hd Hv. rewrite Hd. cbn [getitem]. now rewrite Hv.
  - intros x Hx [Hc|[t Ht]].
    + apply Z.eqb_neq in Hc. now rewrite Hc, Hx.
    + rewrite Ht, Hx. now destruct (_ =? 0).
  - intros o x Ho Hx [Hc|[t Ht]].
    + apply Z.eqb_neq in Hc. now rewrite Hc, Ho, Hx.
    + rewrite Ht, Ho, Hx. now destruct (_ =? 0).
  - intros Hc x Hx. rewrite Hc. cbn [Z.eqb]. now rewrite Hx.
Qed.

End RunnerClaims.

(** C3, as stated, fails: a child process that exits with code 3 and
    writes a byte that is not UTF-8 on its standard error makes the run
    raise the error of the codec; the exit code and the standard error
    are not returned. *)
Lemma garbled_failure_is_not_returned :
  fst (fst (@popen Double.garbled [LogDebugCommand "terraform plan"]
                   "terraform plan")) = 3
  /\ fst (@cmd Double.garbled "plan" [] []
               (@mkWorld Double.garbled Double.tf []))
     = Raise UnicodeDecodeError
  /\ ~ (exists out err,
          fst (@cmd Double.garbled "plan" [] []
                    (@mkWorld Double.garbled Double.tf []))
          = Return (3, out, err)).
Proof.
  split; [reflexivity|]. split; [reflexivity|].
  intros [out [err H]]. discriminate H.
Qed.

Lemma cmd_reloads_state_on_exit_zero_only_witness :
  (1 <> 0
   /\ reloads (trace (snd (@cmd Double.failing "plan" [] []
                                Double.start_failing))) = 0%nat
   /\ fst (@cmd Double.failing "plan" [] [] Double.start_failing)
      = Return (1, "", "boom"))
  /\ (reloads (trace (snd (@cmd Double.succeeding "plan" [] []
                                Double.start_succeeding))) = 1%nat
      /\ tfstate (self (snd (@cmd Double.succeeding "plan" [] []
                                  Double.start_succeeding)))
         = Loaded "terraform.tfstate").
Proof.
  split.
  - pose proof (@cmd_reloads_state_on_exit_zero_only Double.failing
                  "plan" [] [] Double.start_failing) as H.
    cbv zeta in H. destruct H as [_ H].
    assert (Hne : 1 <> 0) by discriminate.
    destruct (H Hne) as [H1 [_ [_ [H4 _]]]].
    split; [exact Hne|]. split; [exact H1|].
    apply H4; reflexivity.
  - pose proof (@cmd_reloads_state_on_exit_zero_only Double.succeeding
                  "plan" [] [] Double.start_succeeding) as H.
    cbv zeta in H. destruct H as [H _].
    destruct (H eq_refl) as [H1 [H2 _]].
    split; [exact H1|].
    apply H2. reflexivity.
Defined.

(** C4, as stated, fails: the child process exits with code 0 and
    [apply] raises, once because the state file cannot be read and once
    because the standard output is not UTF-8. *)
Lemma apply_raises_on_exit_zero :
  (fst (fst (@popen (Double.runtime_no_state 0 [] [])
                    [LogDebugCommand "terraform apply -var='a=b' -no-color"]
                    "terraform apply -var='a=b' -no-color")) = 0
   /\ fst (@apply (Double.runtime_no_state 0 [] []) None true []
                  (@mkWorld (Double.runtime_no_state 0 [] []) Double.tf []))
      = Raise (OSError "terraform.tfstate")
   /\ fst (@apply (Double.runtime_no_state 0 [] []) None true []
                  (@mkWorld (Double.runtime_no_state 0 [] []) Double.tf []))
      <> Return tt)
  /\ (fst (fst (@popen (Double.runtime 0 [Byte.xff] []
                                       (Raise (ValueError "")))
                       [LogDebugCommand
                          "terraform apply -var='a=b' -no-color"]
                       "terraform apply -var='a=b' -no-color")) = 0
      /\ fst (@apply (Double.runtime 0 [Byte.xff] [] (Raise (ValueError "")))
                     None true []
                     (@mkWorld (Double.runtime 0 [Byte.xff] []
                                               (Raise (ValueError "")))
                               Double.tf []))
         = Raise UnicodeDecodeError).
Proof.
  split.
  - split; [reflexivity|]. split; [reflexivity|]. discriminate.
  - split; reflexivity.
Qed.

Lemma apply_raises_or_returns_witness :
  keyword_clash [] = false
  /\ fst (@apply Double.failing None true [] Double.start_failing)
     = Raise (RuntimeError "boom")
  /\ fst (@apply Double.succeeding None true [] Double.start_succeeding)
     = Return tt.
Proof.
  assert (K : keyword_clash [] = false) by reflexivity.
  split; [exact K|]. split.
  - pose proof (@apply_raises_or_returns Double.failing None true []
                  Double.start_failing K) as H.
    cbv zeta in H. destruct H as [H _].
    assert (Hne : 1 <> 0) by discriminate.
    exact (H Hne "" "boom" eq_refl eq_refl).
  - pose proof (@apply_raises_or_returns Double.succeeding None true []
                  Double.start_succeeding K) as H.
    cbv zeta in H. destruct H as [_ [H _]].
    exact (H eq_refl "terraform.tfstate" " {}" "" eq_refl eq_refl eq_refl).
Defined.

(** C8, as stated, fails: the run exits with code 3, its standard error
    is not UTF-8, and [output] raises instead of returning [None]. *)
Lemma garbled_output_raises :
  fst (fst (@popen Double.garbled
                   [LogDebugCommand "terraform output -json ip"]
                   "terraform output -json ip")) = 3
  /\ fst (@output Double.garbled "ip"
                  (@mkWorld Double.garbled Double.tf []))
     = Raise UnicodeDecodeError
  /\ fst (@output Double.garbled "ip"
                  (@mkWorld Double.garbled Double.tf []))
     <> Return JNull.
Proof.
  split; [reflexivity|]. split; [reflexivity|]. discriminate.
Qed.

Lemma output_decodes_value_or_returns_none_witness :
  fst (@output Double.failing "ip" Double.start_failing) = Return JNull
  /\ lstrip (String (ascii_of_nat 10) ("  " ++ Double.document))
     = Double.document
  /\ Double.loads (String (ascii_of_nat 10) ("  " ++ Double.document))
     = Raise (ValueError (String (ascii_of_nat 10)
                                 ("  " ++ Double.document)))
  /\ fst (@output Double.printing "ip"
                  (@mkWorld Double.printing Double.tf []))
     = Return (JStr "10.0.0.1").
Proof.
  split.
  - pose proof (@output_decodes_value_or_returns_none Double.failing "ip"
                  Double.start_failing) as H.
    cbv zeta in H. destruct H as [_ [H _]].
    assert (Hne : 1 <> 0) by discriminate.
    exact (H Hne "" "boom" eq_refl eq_refl).
  - split; [reflexivity|]. split; [reflexivity|].
    pose proof (@output_decodes_value_or_returns_none Double.printing "ip"
                  (@mkWorld Double.printing Double.tf [])) as H.
    cbv zeta in H. destruct H as [_ [_ [H _]]].
    destruct (H eq_refl "terraform.tfstate"
                (String (ascii_of_nat 10) ("  " ++ Double.document)) ""
                eq_refl eq_refl eq_refl) as [_ H'].
    exact (H' [("value", JStr "10.0.0.1")] (JStr "10.0.0.1")
              eq_refl eq_refl).
Defined.


(** ** Overrides and the command *)

Section OverrideCommand.

Context {RT : Runtime}.


End OverrideCommand.


(** ** Values with a space *)

Lemma no_space_append (a b : string) :
  no_space (a ++ b) = no_space a && no_space b.
Proof.
  induction a as [|c a IH]; simpl; [reflexivity|].
  now rewrite IH, andb_assoc.
Qed.

Lemma append_not_empty (a : string) (c : ascii) (b : string) :
  ((a ++ String c b) =? "")%string = false.
Proof.
  now destruct a.
Qed.

Lemma join_cons_more (t : string) (l : list string) :
  l <> [] -> join " " (t :: l) = (t ++ " " ++ join " " l)%string.
Proof.
  intros H. rewrite join_cons. destruct l; [now elim H | reflexivity].
Qed.

(** Joining cannot tell a token with a space from two tokens. *)
Lemma join_merge (a b : list string) (t u : string) :
  join " " (a ++ (t ++ " " ++ u)%string :: b) = join " " (a ++ t :: u :: b).
Proof.
  induction a as [|x a IH].
  - cbn [app]. rewrite (join_cons_more t (l := u :: b)) by discriminate.
    rewrite !join_cons. now rewrite append_assoc.
  - cbn [app].
    rewrite !join_cons_more
      by (intros E; apply app_eq_nil in E; destruct E; discriminate).
    now rewrite IH.
Qed.

(** X5.  Lines 112-126: a string value is written into the command as it
    is, without quotes.  When it holds a space, its token holds the space
    too, and splitting the encoded string on whitespace gives, in place of
    that one token, two words: the flag with the text before the space,
    and the text after the space as a word of its own, read like a token
    or an argument the caller had given. *)
Theorem spaced_value_is_read_back_as_two_words (S : Type)
    (self : Terraform S) (cmd : string) (args : list string)
    (pre post : dict value) (k s1 s2 : string) :
  is_word (terraform_bin_path self) = true ->
  Forall (fun t => is_word t = true) (option_tokens pre) ->
  Forall (fun t => is_word t = true) (option_tokens post) ->
  Forall (fun t => is_word t = true) args ->
  no_space (option_name k) = true ->
  no_space s1 = true ->
  is_word s2 = true ->
  entry_tokens k (VStr (s1 ++ " " ++ s2))
  = [("-" ++ option_name k ++ "=" ++ s1 ++ " " ++ s2)%string]
  /\ split (generate_cmd_string self cmd args
              (pre ++ (k, VStr (s1 ++ " " ++ s2)) :: post))
     = [terraform_bin_path self] ++ split cmd ++ option_tokens pre
       ++ [("-" ++ option_name k ++ "=" ++ s1)%string; s2]
       ++ option_tokens post ++ args.
Proof.
  intros Hb Hpre Hpost Ha Hk H1 H2.
  assert (E : entry_tokens k (VStr (s1 ++ " " ++ s2))
              = [("-" ++ option_name k ++ "=" ++ s1 ++ " " ++ s2)%string]).
  { unfold entry_tokens, VStr. cbn [eq_empty_str truthy is_bool str].
    change (s1 ++ " " ++ s2)%string with (s1 ++ String " " s2)%string.
    now rewrite append_not_empty. }
  split; [exact E|].
  unfold generate_cmd_string. rewrite cmd_tokens_entry, E.
  set (flag := ("-" ++ option_name k ++ "=" ++ s1)%string).
  assert (F : ("-" ++ option_name k ++ "=" ++ s1 ++ " " ++ s2)%string
              = (flag ++ " " ++ s2)%string).
  { unfold flag. cbn [append].
    change (option_name k ++ String "=" (s1 ++ String " " s2))%string
      with (option_name k ++ ("=" ++ s1) ++ String " " s2)%string.
    rewrite <- append_assoc. reflexivity. }
  rewrite F.
  replace ([terraform_bin_path self] ++ split cmd ++ option_tokens pre
           ++ [(flag ++ " " ++ s2)%string] ++ option_tokens post ++ args)
    with (([terraform_bin_path self] ++ split cmd ++ option_tokens pre)
          ++ (flag ++ " " ++ s2)%string :: (option_tokens post ++ args))
    by (now rewrite <- !app_assoc).
  rewrite join_merge. rewrite <- !app_assoc. cbn [app].
  change (terraform_bin_path self
          :: split cmd ++ option_tokens pre
             ++ flag :: s2 :: option_tokens post ++ args)
    with ([terraform_bin_path self] ++ split cmd ++ option_tokens pre
          ++ [flag; s2] ++ option_tokens post ++ args).
  apply split_join.
  apply Forall_app. split; [now repeat constructor|].
  apply Forall_app. split; [now apply split_from_words|].
  apply Forall_app. split; [exact Hpre|].
  apply Forall_app. split; [|now apply Forall_app].
  constructor; [|now repeat constructor].
  unfold flag, is_word. cbn [append String.eqb negb andb no_space isspace].
  change (no_space (String "-" (option_name k ++ String "=" s1)) = true).
  cbn [no_space]. rewrite no_space_append. cbn [no_space].
  rewrite Hk, H1. reflexivity.
Qed.

Lemma spaced_value_is_read_back_as_two_words_witness :
  split (generate_cmd_string (@default unit) "apply" ["dir"]
           [("state", VStr "my.tfstate -destroy")])
  = ["terraform"; "apply"; "-state=my.tfstate"; "-destroy"; "dir"].
Proof.
  refine (proj2 (@spaced_value_is_read_back_as_two_words unit default
                   "apply" ["dir"] [] [] "state" "my.tfstate" "-destroy"
                   eq_refl _ _ _ eq_refl eq_refl eq_refl));
    repeat constructor.
Defined.
